(** * Churn dashboard (app.py): the prediction pipeline and its reporting views

    A shallow embedding of the logic of [app.py]: the session-state store,
    the prediction run behind the "EXECUTE CHURN PROBABILITY ENGINE" button
    (categorical encoding, feature assembly, inference, normalization), the
    classification shown in the result view, the revenue simulation, the
    cohort simulation and the dossier exports.

    Numbers.  Python floats and ints are modelled as exact rationals [Q];
    every finite float is a rational, so a statement over all of [Q] covers
    every finite output of the predictor.  Numeric equalities are stated with
    [==] (equality of rationals).  The documented examples of the
    normalization are also evaluated in binary64 arithmetic, see
    [Module Binary64].

    Exceptions.  Python code that can raise returns a [result]; [try/except
    Exception] is the combinator [try_except].

    The file has two parts: the embedding (definitions only), then the
    properties. *)

From Stdlib Require Import QArith Qround Qminmax Lqa ZArith List String.
From Stdlib Require Import Floats.PrimFloat.
From stdpp Require Import gmap strings.

Set Warnings "-inexact-float,-register-all".
Open Scope Q_scope.

(** * Part I: the embedding *)

(** ** Python built-ins on numbers *)

(** [a > b] on numbers. *)
Definition Qgt_bool (a b : Q) : bool := negb (Qle_bool a b).

(** [a >= b] on numbers. *)
Definition Qge_bool (a b : Q) : bool := Qle_bool b a.

(** [max(a, b)]: the first argument unless the second is greater. *)
Definition py_max (a b : Q) : Q := if Qgt_bool b a then b else a.

(** [min(a, b)]: the first argument unless the second is smaller. *)
Definition py_min (a b : Q) : Q := if Qgt_bool a b then b else a.

(** Rounding to the nearest integer, ties to even. *)
Definition round_half_even (q : Q) : Z :=
  let f := Qfloor q in
  match Qcompare (q - inject_Z f) (1 # 2) with
  | Lt => f
  | Gt => (f + 1)%Z
  | Eq => if Z.even f then f else (f + 1)%Z
  end.

(** [round(q, 3)]. *)
Definition py_round3 (q : Q) : Q := inject_Z (round_half_even (q * 1000)) / 1000.

(** ** Exceptions *)

Inductive exn :=
| KeyError (key : string)
| IndexError
| TypeError
| ValueError (msg : string)
| ZeroDivisionError.

Inductive result (A : Type) :=
| Ok (a : A)
| Raise (e : exn).
Arguments Ok {A} a.
Arguments Raise {A} e.

#[export] Instance result_ret : MRet result := fun A a => Ok a.

#[export] Instance result_bind : MBind result := fun A B f m =>
  match m with
  | Ok a => f a
  | Raise e => Raise e
  end.

(** [try: body / except Exception: handler]; every [exn] above is a subclass
    of [Exception]. *)
Definition try_except {A} (body : result A) (handler : result A) : result A :=
  match body with
  | Ok a => Ok a
  | Raise _ => handler
  end.

(** [a / b] on Python floats. *)
Definition py_div (a b : Q) : result Q :=
  if Qeq_bool b 0 then Raise ZeroDivisionError else Ok (a / b).

(** [l[0]]. *)
Definition index0 {A} (l : list A) : result A :=
  match l with
  | x :: _ => Ok x
  | [] => Raise IndexError
  end.

(** ** The session-state store *)

(** What a key of [st.session_state] holds here: [None], a string or a
    number. *)
Inductive value :=
| VNone
| VStr (s : string)
| VNum (q : Q).

Abbreviation session_state := (gmap string value).

(** [st.session_state[key]]. *)
Definition getitem (st : session_state) (key : string) : result value :=
  match st !! key with
  | Some v => Ok v
  | None => Raise (KeyError key)
  end.

(** A value used where a number is needed (arithmetic, comparison with a
    number, a cell of a numeric array). *)
Definition as_num (v : value) : result Q :=
  match v with
  | VNum q => Ok q
  | _ => Raise TypeError
  end.

(** [if key not in st.session_state: st.session_state[key] = v]. *)
Definition init_key (key : string) (v : value) (st : session_state) : session_state :=
  match st !! key with
  | Some _ => st
  | None => <[key := v]> st
  end.

(** ** Constants (app.py, lines 60-79) *)

Definition FEATURE_VECTORS : list string :=
  [ "Age"; "Gender"; "Support Calls"; "Payment Delay"; "Subscription Type";
    "Contract Length"; "Total Spend"; "Last Interaction" ].

Definition GLOBAL_BASELINES : gmap string Q :=
  list_to_map
    [ ("Age", 35); ("Support Calls", 2); ("Payment Delay", 5);
      ("Contract Length", 12); ("Total Spend", 1500); ("Last Interaction", 14) ].

(** [f"input_{feature}"]. *)
Definition state_key (feature : string) : string := "input_" +:+ feature.

(** ** Session initialization (app.py, lines 581-602) *)

Definition init_feature (st : session_state) (feature : string) : session_state :=
  init_key (state_key feature)
    (if String.eqb feature "Gender" then VStr "Female"
     else if String.eqb feature "Subscription Type" then VStr "Standard"
     else VNum (default 0 (GLOBAL_BASELINES !! feature)))
    st.

(** [uuid8] stands for [str(uuid.uuid4())[:8].upper()]. *)
Definition initialize (uuid8 : string) (st : session_state) : session_state :=
  let st := init_key "session_id" (VStr ("CRM-IDX-" +:+ uuid8)) st in
  let st := fold_left init_feature FEATURE_VECTORS st in
  let st := init_key "churn_risk_score" VNone st in
  let st := init_key "timestamp" VNone st in
  init_key "compute_latency" (VNum 0) st.

(** ** The input widgets (app.py, lines 698-778) *)

(** [(feature, (min_val, max_val, step))] of each [render_numeric_block]. *)
Definition numeric_blocks : list (string * (Q * Q * Q)) :=
  [ ("Age", (18, 90, 1)); ("Contract Length", (1, 36, 1));
    ("Support Calls", (0, 30, 1)); ("Payment Delay", (0, 60, 1));
    ("Total Spend", (0, 20000, 100)); ("Last Interaction", (0, 180, 1)) ].

(** [(feature, options)] of each [render_categorical_block]. *)
Definition categorical_blocks : list (string * list string) :=
  [ ("Gender", ["Female"; "Male"; "Other"]);
    ("Subscription Type", ["Basic"; "Standard"; "Premium"]) ].

(** A widget writes the value the user chose for its feature. *)
Definition write_input (feat_name : string) (v : value) (st : session_state)
  : session_state :=
  <[state_key feat_name := v]> st.

(** ** Model artifacts (app.py, lines 34-57)

    Both artifacts are unpickled objects produced elsewhere; [None] when the
    file could not be loaded.  Only the methods the pipeline calls are
    modelled, and each may raise. *)

(** A per-column label encoder: [le.transform(labels)]. *)
Record LabelEncoder := {
  transform : list value -> result (list Z)
}.

(** The object in [encoder.pkl], used as [encoder[column]]. *)
Record Encoder := {
  encoder_getitem : string -> result LabelEncoder
}.

(** The object in [model.pkl]: [model.predict(rows)] gives one scalar per
    row. *)
Record Model := {
  predict : list (list Q) -> result (list Q)
}.

(** ** The prediction run (app.py, lines 789-851) *)

(** Fallback manual mappings (lines 807-808). *)
Definition manual_gender : gmap string Z :=
  list_to_map [ ("Female", 0%Z); ("Male", 1%Z); ("Other", 2%Z) ].

Definition manual_sub : gmap string Z :=
  list_to_map [ ("Basic", 0%Z); ("Premium", 1%Z); ("Standard", 2%Z) ].

(** [d.get(key, dflt)] for a dict with string keys: a key that is not a
    string is never found. *)
Definition dict_get (d : gmap string Z) (key : value) (dflt : Z) : Z :=
  match key with
  | VStr s => default dflt (d !! s)
  | _ => dflt
  end.

(** The [try] block of the label encoding (lines 811-817). *)
Definition encoder_lookup (encoder : option Encoder) (input_gender input_sub : value)
  : result (Z * Z) :=
  match encoder with
  | Some enc =>
      le_gender ← encoder_getitem enc "Gender";
      gender_codes ← transform le_gender [input_gender];
      gender_val ← index0 gender_codes;
      le_sub ← encoder_getitem enc "Subscription Type";
      sub_codes ← transform le_sub [input_sub];
      sub_val ← index0 sub_codes;
      mret (gender_val, sub_val)
  | None => Raise (ValueError "No encoder")
  end.

(** Label encoding with its fallback (lines 806-821): the pair
    [(gender_val, sub_val)]. *)
Definition encode_categoricals (encoder : option Encoder) (input_gender input_sub : value)
  : result (Z * Z) :=
  try_except
    (encoder_lookup encoder input_gender input_sub)
    (Ok (dict_get manual_gender input_gender 0, dict_get manual_sub input_sub 0)).

(** A numeric input read for the payload.  A cell that is not a number
    makes the array non-numeric and the predictor call fail; the failure is
    raised here, at the read. *)
Definition numeric_input (st : session_state) (feat_name : string) : result Q :=
  v ← getitem st (state_key feat_name);
  as_num v.

(** The one-row array handed to the predictor (lines 803-833). *)
Definition payload (encoder : option Encoder) (st : session_state)
  : result (list (list Q)) :=
  input_gender ← getitem st "input_Gender";
  input_sub ← getitem st "input_Subscription Type";
  codes ← encode_categoricals encoder input_gender input_sub;
  let '(gender_val, sub_val) := codes in
  age ← numeric_input st "Age";
  support_calls ← numeric_input st "Support Calls";
  payment_delay ← numeric_input st "Payment Delay";
  contract_length ← numeric_input st "Contract Length";
  total_spend ← numeric_input st "Total Spend";
  last_interaction ← numeric_input st "Last Interaction";
  mret [[ age; inject_Z gender_val; support_calls; payment_delay;
          inject_Z sub_val; contract_length; total_spend; last_interaction ]].

(** Normalization of the raw predictor output (lines 839-844). *)
Definition normalized_risk (raw_pred : Q) : Q :=
  let normalized_risk := py_min (py_max raw_pred 0) 1 * 100 in
  if Qgt_bool raw_pred 2 then py_min raw_pred 100 else normalized_risk.

(** What the run reads from the clock: [time.time()] before and after, and
    [datetime.now().strftime("%Y-%m-%d %H:%M:%S UTC")]. *)
Record clock := {
  start_time : Q;
  end_time : Q;
  now : string
}.

(** What the run shows to the user. *)
Inductive ui_event :=
| st_error (msg : string).

Definition SYSTEM_HALT : string :=
  "SYSTEM HALT: `model.pkl` absent from directory. Cannot initialize Decision Tree kernel.".

(** The body of [if evaluate_clicked:] (lines 789-851): the new store and
    the messages shown. *)
Definition evaluate (model : option Model) (encoder : option Encoder) (clk : clock)
    (st : session_state) : result (session_state * list ui_event) :=
  match model with
  | None => Ok (st, [st_error SYSTEM_HALT])
  | Some m =>
      rows ← payload encoder st;
      preds ← predict m rows;
      raw_pred ← index0 preds;
      let st := <["churn_risk_score" := VNum (normalized_risk raw_pred)]> st in
      let st := <["timestamp" := VStr (now clk)]> st in
      let st := <["compute_latency" := VNum (py_round3 (end_time clk - start_time clk))]> st in
      Ok (st, [])
  end.

(** One interaction with the first tab: a widget write or a click on the
    button. *)
Inductive action :=
| Edit (feat_name : string) (v : value)
| Click (clk : clock).

Definition step (model : option Model) (encoder : option Encoder)
    (st : session_state) (a : action) : result session_state :=
  match a with
  | Edit feat_name v => Ok (write_input feat_name v st)
  | Click clk => r ← evaluate model encoder clk st; mret (fst r)
  end.

Fixpoint run (model : option Model) (encoder : option Encoder)
    (st : session_state) (actions : list action) : result session_state :=
  match actions with
  | [] => Ok st
  | a :: rest => st' ← step model encoder st a; run model encoder st' rest
  end.

(** ** The result view (app.py, lines 854-871) *)

Record risk_box := {
  box_class : string;
  val_class : string;
  conf_class : string;
  title_text : string
}.

Definition primary_risk_output (risk : Q) : risk_box :=
  if Qgt_bool risk 60 then
    {| box_class := "prediction-box"; val_class := "pred-value";
       conf_class := "pred-conf";
       title_text := "HIGH CHURN PROBABILITY DETECTED" |}
  else if Qgt_bool risk 30 then
    {| box_class := "prediction-box"; val_class := "pred-value";
       conf_class := "pred-conf";
       title_text := "MODERATE ATTRITION RISK" |}
  else
    {| box_class := "prediction-box prediction-box-safe";
       val_class := "pred-value pred-value-safe";
       conf_class := "pred-conf pred-conf-safe";
       title_text := "CUSTOMER RETENTION SECURE" |}.

(** The three bands of the classification and the title each one shows. *)
Inductive band := high | moderate | secure.

Definition band_title (b : band) : string :=
  match b with
  | high => "HIGH CHURN PROBABILITY DETECTED"
  | moderate => "MODERATE ATTRITION RISK"
  | secure => "CUSTOMER RETENTION SECURE"
  end.

(** A view that is drawn only once a score exists: [None] stands for the
    placeholder drawn while [churn_risk_score is None]. *)
Definition when_scored {A} (st : session_state) (view : Q -> result A)
  : result (option A) :=
  score ← getitem st "churn_risk_score";
  match score with
  | VNone => Ok None
  | v => risk ← as_num v; a ← view risk; mret (Some a)
  end.

Definition result_view (st : session_state) : result (option risk_box) :=
  when_scored st (fun risk => Ok (primary_risk_output risk)).

(** ** Revenue simulation (app.py, lines 1038-1046) *)

Record revenue := {
  mrr : Q;
  annual_revenue : Q;
  revenue_at_risk : Q;
  revenue_secured : Q
}.

Definition revenue_exposure (churn_risk_score ltv contract_length : Q)
  : result revenue :=
  risk ← py_div churn_risk_score 100;
  mrr ← py_div ltv (contract_length + 1);
  let annual_revenue := mrr * 12 in
  mret {| mrr := mrr;
          annual_revenue := annual_revenue;
          revenue_at_risk := annual_revenue * risk;
          revenue_secured := annual_revenue * (1 - risk) |}.

Definition revenue_view (st : session_state) : result (option revenue) :=
  when_scored st (fun churn_risk_score =>
    ltv ← numeric_input st "Total Spend";
    contract_length ← numeric_input st "Contract Length";
    revenue_exposure churn_risk_score ltv contract_length).

(** ** Cohort variance simulation (app.py, lines 1092-1099)

    numpy's global generator is a parameter: a type of generator states, the
    state [np.random.seed(s)] installs, and one draw of
    [np.random.normal(loc, scale)], which returns the sample and the next
    state. *)

Section Cohort.

Variable rng_state : Type.
Variable np_random_seed : Z -> rng_state.
Variable np_random_normal1 : Q -> Q -> rng_state -> Q * rng_state.

(** [np.random.normal(loc, scale, size)] on the global generator. *)
Fixpoint np_random_normal (loc scale : Q) (size : nat) (g : rng_state)
  : list Q * rng_state :=
  match size with
  | O => ([], g)
  | S size' =>
      let '(x, g1) := np_random_normal1 loc scale g in
      let '(xs, g2) := np_random_normal loc scale size' g1 in
      (x :: xs, g2)
  end.

(** [np.clip(a, a_min, a_max)]. *)
Definition np_clip (a : list Q) (a_min a_max : Q) : list Q :=
  map (fun x => py_min (py_max x a_min) a_max) a.

(** Lines 1092-1099, from the generator state [g] the view finds: the
    cohort and the state it leaves. *)
Definition simulated_cohort (base_risk : Q) (g : rng_state) : list Q * rng_state :=
  let g := np_random_seed 42 in
  let error_variance := 7 in
  let '(simulated_cohort, g) := np_random_normal base_risk error_variance 100 g in
  (np_clip simulated_cohort 0 100, g).

Definition cohort_view (st : session_state) (g : rng_state)
  : result (option (list Q)) * rng_state :=
  match when_scored st (fun base_risk => Ok base_risk) with
  | Ok (Some base_risk) =>
      let '(cohort, g') := simulated_cohort base_risk g in (Ok (Some cohort), g')
  | Ok None => (Ok None, g)
  | Raise e => (Raise e, g)
  end.

End Cohort.

Arguments np_random_normal {rng_state}.
Arguments simulated_cohort {rng_state}.
Arguments cohort_view {rng_state}.

(** A small generator to run the simulation on: a linear congruential
    state, and a draw that spreads the state over [-3, 3] deviations. *)
Definition lcg_seed (s : Z) : Z := s.

Definition lcg_normal1 (loc scale : Q) (g : Z) : Q * Z :=
  let g' := ((1103515245 * g + 12345) mod 2147483648)%Z in
  (loc + scale * (inject_Z (g' mod 61 - 30) / 10), g').

(** ** Dossier exports (app.py, lines 1139-1181) *)

(** The structured payload: Python dicts keep insertion order, so an object
    is the list of its items. *)
Inductive json :=
| JNull
| JString (s : string)
| JNumber (q : Q)
| JObject (items : list (string * json)).

Definition json_of_value (v : value) : json :=
  match v with
  | VNone => JNull
  | VStr s => JString s
  | VNum q => JNumber q
  end.

(** [{t: st.session_state[f"input_{t}"] for t in FEATURE_VECTORS}]. *)
Definition customer_telemetry (st : session_state) : result (list (string * value)) :=
  mapM (fun t => v ← getitem st (state_key t); mret (t, v)) FEATURE_VECTORS.

Definition json_payload (sess_id ts : value) (risk : Q)
    (telemetry : list (string * value)) : json :=
  JObject
    [ ("metadata",
       JObject [ ("transaction_id", json_of_value sess_id);
                 ("timestamp", json_of_value ts);
                 ("model_architecture", JString "DecisionTreeRegressor");
                 ("validation_accuracy", JNumber 0.930) ]);
      ("churn_prediction",
       JObject [ ("risk_score_percentage", JNumber risk);
                 ("status", JString (if Qge_bool risk 50 then "High Risk" else "Secure")) ]);
      ("customer_telemetry",
       JObject (map (fun '(t, v) => (t, json_of_value v)) telemetry)) ].

(** A one-row data frame: its columns in order, each with its cell. *)
Abbreviation frame := (list (string * value)).

(** [pd.DataFrame([record])]. *)
Definition DataFrame (record : list (string * value)) : frame := record.

(** [df.assign(column=v)]: overwrites the column if it exists, appends it
    otherwise. *)
Definition assign (column : string) (v : value) (df : frame) : frame :=
  if existsb (fun c => String.eqb (fst c) column) df
  then map (fun c => if String.eqb (fst c) column then (fst c, v) else c) df
  else df ++ [(column, v)].

Definition csv_data (ts : value) (risk : Q) (telemetry : list (string * value)) : frame :=
  assign "Timestamp" ts (assign "Churn_Risk_Pct" (VNum risk) (DataFrame telemetry)).

Definition dossier (st : session_state) : result (option (json * frame)) :=
  when_scored st (fun risk =>
    ts ← getitem st "timestamp";
    sess_id ← getitem st "session_id";
    telemetry ← customer_telemetry st;
    mret (json_payload sess_id ts risk telemetry, csv_data ts risk telemetry)).

(** ** Reading the exports *)

(** The value stored under [key] in the items of an object. *)
Fixpoint assoc {A} (key : string) (items : list (string * A)) : option A :=
  match items with
  | [] => None
  | (k, a) :: rest => if String.eqb k key then Some a else assoc key rest
  end.

(** The member of [j] reached by following [path]. *)
Fixpoint json_get (path : list string) (j : json) : option json :=
  match path with
  | [] => Some j
  | key :: path' =>
      match j with
      | JObject items => j' ← assoc key items; json_get path' j'
      | _ => None
      end
  end.

(** The data a payload carries: its atomic values in document order, the
    nesting and the key names left out. *)
Fixpoint json_data (j : json) : list value :=
  match j with
  | JNull => [VNone]
  | JString s => [VStr s]
  | JNumber q => [VNum q]
  | JObject items => flat_map (fun kv => json_data (snd kv)) items
  end.

(** The data a frame carries: its cells in column order. *)
Definition frame_data (df : frame) : list value := map snd df.

(** The column names of a frame: the header line of its CSV. *)
Definition columns (df : frame) : list string := map fst df.

(** ** The Customer Feature Record

    The eight inputs as one record, and what it means for the store to hold
    it. *)

Record customer := {
  age : Q;
  gender : string;
  support_calls : Q;
  payment_delay : Q;
  subscription_type : string;
  contract_length : Q;
  total_spend : Q;
  last_interaction : Q
}.

(** The fields in the order of [FEATURE_VECTORS]. *)
Definition inputs_of (c : customer) : list (string * value) :=
  [ ("Age", VNum (age c)); ("Gender", VStr (gender c));
    ("Support Calls", VNum (support_calls c));
    ("Payment Delay", VNum (payment_delay c));
    ("Subscription Type", VStr (subscription_type c));
    ("Contract Length", VNum (contract_length c));
    ("Total Spend", VNum (total_spend c));
    ("Last Interaction", VNum (last_interaction c)) ].

Definition holds (st : session_state) (c : customer) : Prop :=
  Forall (fun tv => st !! state_key (fst tv) = Some (snd tv)) (inputs_of c).

(** The clamp of the specification, written with the order of [Q]. *)
Definition clamp (x lo hi : Q) : Q :=
  if Qle_bool x lo then lo else if Qle_bool hi x then hi else x.

(** The selectors offer exactly these labels. *)
Definition valid_categoricals (c : customer) : Prop :=
  In (gender c) ["Female"; "Male"; "Other"] /\
  In (subscription_type c) ["Basic"; "Standard"; "Premium"].

(** The slider of the contract length ranges over [1, 36]. *)
Definition valid_contract_length (c : Q) : Prop := 1 <= c <= 36.

(** ** Notions about the store and the exports *)

(** The Prediction Result as the store holds it before the first run. *)
Definition no_prediction (st : session_state) : Prop :=
  st !! "churn_risk_score" = Some VNone /\
  st !! "timestamp" = Some VNone /\
  st !! "compute_latency" = Some (VNum 0).

(** The keys the initialization creates. *)
Definition store_keys : list string :=
  "session_id" :: map state_key FEATURE_VECTORS
  ++ ["churn_risk_score"; "timestamp"; "compute_latency"].

(** A store in which every one of these keys is present. *)
Definition initialized (st : session_state) : Prop :=
  Forall (fun key => is_Some (st !! key)) store_keys.

(** The inputs of an initialized store, in the order of [FEATURE_VECTORS]. *)
Definition telemetry_of (st : session_state) : list (string * value) :=
  map (fun t => (t, default VNone (st !! state_key t))) FEATURE_VECTORS.

(** Two exports carry the same data when their values are the same up to
    the order in which the layouts list them. *)
Definition same_content (j : json) (df : frame) : Prop :=
  json_data j ≡ₚ frame_data df.

(** ** Binary64 arithmetic

    The normalization on IEEE 754 binary64 numbers, the floats of Python. *)

Module Binary64.

Definition py_max (a b : float) : float := if PrimFloat.ltb a b then b else a.

Definition py_min (a b : float) : float := if PrimFloat.ltb b a then b else a.

Definition normalized_risk (raw_pred : float) : float :=
  let normalized_risk :=
    PrimFloat.mul (py_min (py_max raw_pred 0%float) 1%float) 100%float in
  if PrimFloat.ltb 2%float raw_pred then py_min raw_pred 100%float
  else normalized_risk.

End Binary64.

(** ** Sample data *)

Definition sample_clock : clock :=
  {| start_time := 1000; end_time := 1001.2345; now := "2026-01-01 00:00:00 UTC" |}.

(** A predictor that answers 0.55 for every row. *)
Definition sample_model : Model :=
  {| predict := fun rows => Ok (map (fun _ => 0.55) rows) |}.

(** An encoder whose every lookup fails. *)
Definition broken_encoder : Encoder :=
  {| encoder_getitem := fun column => Raise (KeyError column) |}.

(** An encoder that knows the gender labels only. *)
Definition gender_only_encoder : Encoder :=
  {| encoder_getitem := fun column =>
       if String.eqb column "Gender"
       then Ok {| transform := fun labels => Ok (map (fun _ => 7%Z) labels) |}
       else Raise (KeyError column) |}.

(** An encoder that answers 5 for every label of every column. *)
Definition constant_encoder : Encoder :=
  {| encoder_getitem := fun _ =>
       Ok {| transform := fun labels => Ok (map (fun _ => 5%Z) labels) |} |}.

Definition fresh_session : session_state := initialize "1A2B3C4D" ∅.

Definition default_customer : customer :=
  {| age := 35; gender := "Female"; support_calls := 2; payment_delay := 5;
     subscription_type := "Standard"; contract_length := 12;
     total_spend := 1500; last_interaction := 14 |}.

(** A session that holds a score of 55. *)
Definition scored_session : session_state :=
  <["compute_latency" := VNum 1.234]>
    (<["timestamp" := VStr "2026-01-01 00:00:00 UTC"]>
       (<["churn_risk_score" := VNum 55]> fresh_session)).

(** * Part I, continued: the rest of the script *)

(** ** Loading the artifacts (app.py, lines 34-57)

    The file system and the unpickler are parameters: opening a file for
    reading, and [pickle.load] read as a predictor and as an encoder; each
    may raise. *)

Section Loader.

Variable file : Type.
Variable open_rb : string -> result file.
Variable pickle_load_model : file -> result Model.
Variable pickle_load_encoder : file -> result Encoder.

Definition load_ml_infrastructure : result (option Model * option Encoder) :=
  let dt_model : option Model := None in
  let label_encoder : option Encoder := None in
  dt_model ←
    try_except
      (f ← open_rb "model.pkl"; m ← pickle_load_model f; mret (Some m))
      (Ok dt_model);
  label_encoder ←
    try_except
      (f ← open_rb "encoder.pkl"; e ← pickle_load_encoder f; mret (Some e))
      (Ok label_encoder);
  mret (dt_model, label_encoder).

End Loader.

Arguments load_ml_infrastructure {file}.

(** ** The sidebar status (app.py, lines 645-659)

    [None] is the "SYSTEM STANDBY" box; otherwise the colour, the text and
    the latency shown. *)
Definition sidebar_status (st : session_state)
  : result (option (string * string * value)) :=
  when_scored st (fun churn_risk_score =>
    let status_color :=
      if Qgt_bool churn_risk_score 50 then "var(--crimson-neon)"
      else "var(--emerald-neon)" in
    let status_text :=
      if Qgt_bool churn_risk_score 50 then "CRITICAL RISK DETECTED"
      else "RETENTION SECURE" in
    compute_latency ← getitem st "compute_latency";
    mret (status_color, status_text, compute_latency)).

(** ** The input blocks (app.py, lines 698-753) *)

(** [d[key]] on a dict of numbers. *)
Definition dict_getitem (d : gmap string Q) (key : string) : result Q :=
  match d !! key with
  | Some q => Ok q
  | None => Raise (KeyError key)
  end.

(** The delta of [render_numeric_block] against the baseline (lines
    699-707): [Some delta_pct], or [None] for the fixed "0% vs Avg User". *)
Definition delta_pct (st : session_state) (feat_name : string) : result (option Q) :=
  current_val ← getitem st (state_key feat_name);
  baseline ← dict_getitem GLOBAL_BASELINES feat_name;
  if Qgt_bool baseline 0 then
    current ← as_num current_val;
    ratio ← py_div (current - baseline) baseline;
    mret (Some (ratio * 100))
  else mret None.

(** The [delta_color] of the metric (line 733). *)
Definition delta_color (feat_name : string) : string :=
  if existsb (String.eqb feat_name) ["Payment Delay"; "Support Calls"]
  then "inverse" else "normal".

(** [v == s] for a stored value and a string. *)
Definition value_is (v : value) (s : string) : bool :=
  match v with
  | VStr t => String.eqb t s
  | _ => false
  end.

(** [v in options]. *)
Definition py_in (v : value) (options : list string) : bool :=
  existsb (value_is v) options.

(** [options.index(v)]: the first position that holds [v]. *)
Fixpoint list_index (v : value) (options : list string) : result nat :=
  match options with
  | [] => Raise (ValueError "not in list")
  | s :: rest =>
      if value_is v s then Ok O
      else (i ← list_index v rest; mret (S i))
  end.

(** The [index] handed to the selectbox of [render_categorical_block]
    (line 751). *)
Definition selectbox_index (options : list string) (current_val : value)
  : result nat :=
  if py_in current_val options then list_index current_val options else Ok O.

(** What a widget can write for its feature: a slider gives a number
    between its [min_value] and [max_value], a selectbox one of its
    options. *)
Definition widget_accepts (feat_name : string) (v : value) : bool :=
  match assoc feat_name numeric_blocks, assoc feat_name categorical_blocks, v with
  | Some (min_val, max_val, _), _, VNum q => Qle_bool min_val q && Qle_bool q max_val
  | None, Some options, VStr s => existsb (String.eqb s) options
  | _, _, _ => false
  end.

(** ** Risk analytics (app.py, lines 897-954) *)

Definition max_bounds : gmap string Q :=
  list_to_map
    [ ("Age", 80); ("Support Calls", 15); ("Payment Delay", 30);
      ("Contract Length", 24); ("Total Spend", 10000); ("Last Interaction", 90) ].

Definition radar_categories : list string :=
  [ "Age Context"; "Support Escalations"; "Financial Delays"; "Commitment";
    "LTV Spend"; "Account Ghosting" ].

(** [st.session_state["input_F"] / max_bounds["F"]]. *)
Definition bound_ratio (st : session_state) (feat_name : string) : result Q :=
  x ← numeric_input st feat_name;
  bound ← dict_getitem max_bounds feat_name;
  py_div x bound.

(** The six values of lines 905-912. *)
Definition radar_vals (st : session_state) : result (list Q) :=
  r_age ← bound_ratio st "Age";
  r_calls ← bound_ratio st "Support Calls";
  r_delay ← bound_ratio st "Payment Delay";
  r_contract ← bound_ratio st "Contract Length";
  r_spend ← bound_ratio st "Total Spend";
  r_last ← bound_ratio st "Last Interaction";
  mret [ py_min r_age 1; py_min r_calls 1; py_min r_delay 1;
         1 - py_min r_contract 1; 1 - py_min r_spend 1; py_min r_last 1 ].

(** [l += [l[0]]]. *)
Definition close_polygon {A} (l : list A) : result (list A) :=
  first ← index0 l;
  mret (l ++ [first]).

(** The [r] of the "Ideal Retention Profile" trace (line 932). *)
Definition ideal_profile : list Q := [0.3; 0.1; 0.1; 0.2; 0.2; 0.1; 0.3].

(** The radar trace of the customer: its [r] and its [theta]. *)
Definition risk_topology (st : session_state)
  : result (option (list Q * list string)) :=
  when_scored st (fun _ =>
    vals ← radar_vals st;
    vals ← close_polygon vals;
    categories ← close_polygon radar_categories;
    mret (vals, categories)).

(** Line 954. *)
Definition gauge_color (risk_score : Q) : string :=
  if Qge_bool risk_score 50 then "#f43f5e"
  else if Qge_bool risk_score 25 then "#f59e0b"
  else "#10b981".

(** ** The insight cards (app.py, lines 992-1002): what each of the two
    columns receives, in order. *)
Fixpoint render_insights {A} (i : nat) (insights : list A) : list A * list A :=
  match insights with
  | [] => ([], [])
  | card :: rest =>
      let '(col_i1, col_i2) := render_insights (S i) rest in
      if Nat.eqb (i mod 2) 0 then (card :: col_i1, col_i2)
      else (col_i1, card :: col_i2)
  end.

(** ** The dossier banner (app.py, lines 1143-1145) *)

Definition text_col (risk : Q) : string :=
  if Qge_bool risk 50 then "var(--crimson-neon)" else "var(--emerald-neon)".

(** ** One run of the script, top to bottom

    Streamlit runs the whole script on every interaction.  [widget] gives
    the value each input widget holds in this run and [clicked] the clock
    readings when the run was triggered by the button.  The order is the
    order of the source: initialization (lines 581-602), the sidebar (lines
    607-659), the eight input blocks (lines 756-780), the click block (lines
    789-851) and then the views of the tabs. *)

(** [render_numeric_block] (lines 698-735): the delta against the baseline,
    then the write of the slider's value. *)
Definition render_numeric_block (widget : string -> value) (st : session_state)
    (feat_name : string) : result session_state :=
  _ ← delta_pct st feat_name;
  mret (write_input feat_name (widget feat_name) st).

(** [render_categorical_block] (lines 737-753): the index of the current
    value, then the write of the selectbox's value. *)
Definition render_categorical_block (widget : string -> value) (st : session_state)
    (feat_name : string) (options : list string) : result session_state :=
  current_val ← getitem st (state_key feat_name);
  _ ← selectbox_index options current_val;
  mret (write_input feat_name (widget feat_name) st).

(** The two columns of input blocks (lines 756-780). *)
Definition render_inputs (widget : string -> value) (st : session_state)
  : result session_state :=
  st ← render_numeric_block widget st "Age";
  st ← render_categorical_block widget st "Gender" ["Female"; "Male"; "Other"];
  st ← render_categorical_block widget st "Subscription Type"
         ["Basic"; "Standard"; "Premium"];
  st ← render_numeric_block widget st "Contract Length";
  st ← render_numeric_block widget st "Support Calls";
  st ← render_numeric_block widget st "Payment Delay";
  st ← render_numeric_block widget st "Total Spend";
  render_numeric_block widget st "Last Interaction".

(** The gauge of the second tab (lines 953-954). *)
Definition risk_gauge (st : session_state) : result (option string) :=
  when_scored st (fun risk_score => Ok (gauge_color risk_score)).

(** What one run shows.  The cohort of the fifth tab is drawn between the
    revenue simulation and the dossier from the same store; it is
    [cohort_view] on the store the run returns. *)
Record rendered := {
  shown_sidebar : option (string * string * value);
  shown_events : list ui_event;
  shown_box : option risk_box;
  shown_topology : option (list Q * list string);
  shown_gauge : option string;
  shown_revenue : option revenue;
  shown_dossier : option (json * frame)
}.

Definition script_run (model : option Model) (encoder : option Encoder)
    (uuid8 : string) (widget : string -> value) (clicked : option clock)
    (st : session_state) : result (session_state * rendered) :=
  let st := initialize uuid8 st in
  sidebar ← sidebar_status st;
  st ← render_inputs widget st;
  clicked_block ←
    match clicked with
    | Some clk => evaluate model encoder clk st
    | None => Ok (st, [])
    end;
  let '(st, events) := clicked_block in
  box ← result_view st;
  topology ← risk_topology st;
  gauge ← risk_gauge st;
  revenue ← revenue_view st;
  dos ← dossier st;
  mret (st, {| shown_sidebar := sidebar; shown_events := events;
               shown_box := box; shown_topology := topology;
               shown_gauge := gauge; shown_revenue := revenue;
               shown_dossier := dos |}).

(** Every widget holds a value it can produce. *)
Definition valid_widget (widget : string -> value) : Prop :=
  forall feat_name : string,
    In feat_name FEATURE_VECTORS -> widget_accepts feat_name (widget feat_name) = true.

(** ** Notions about reachable stores *)

(** Every input holds a value its widget can write. *)
Definition valid_inputs (st : session_state) : Prop :=
  Forall (fun t => exists v : value,
              st !! state_key t = Some v /\ widget_accepts t v = true)
    FEATURE_VECTORS.

(** The score and the timestamp are both unset, or the score is a
    percentage and the timestamp a string. *)
Definition prediction_consistent (st : session_state) : Prop :=
  (st !! "churn_risk_score" = Some VNone /\ st !! "timestamp" = Some VNone) \/
  (exists (r : Q) (ts : string),
      st !! "churn_risk_score" = Some (VNum r) /\ 0 <= r <= 100 /\
      st !! "timestamp" = Some (VStr ts)).

Definition well_formed (st : session_state) : Prop :=
  initialized st /\ valid_inputs st /\ prediction_consistent st.

(** An interaction the widgets allow. *)
Definition valid_action (a : action) : Prop :=
  match a with
  | Edit feat_name v => widget_accepts feat_name v = true
  | Click _ => True
  end.

(** A predictor that answers every one-row array with at least one
    scalar. *)
Definition answers (m : Model) : Prop :=
  forall row : list Q, exists (p : Q) (ps : list Q), predict m [row] = Ok (p :: ps).

(** A record every field of which its widget can write. *)
Definition valid_customer (c : customer) : Prop :=
  Forall (fun tv => widget_accepts (fst tv) (snd tv) = true) (inputs_of c).

(** A record whose six numeric fields are not negative. *)
Definition nonnegative (c : customer) : Prop :=
  0 <= age c /\ 0 <= support_calls c /\ 0 <= payment_delay c /\
  0 <= contract_length c /\ 0 <= total_spend c /\ 0 <= last_interaction c.

(** A record that is field by field at most another, on the numeric
    fields. *)
Definition below (c1 c2 : customer) : Prop :=
  age c1 <= age c2 /\ support_calls c1 <= support_calls c2 /\
  payment_delay c1 <= payment_delay c2 /\
  contract_length c1 <= contract_length c2 /\
  total_spend c1 <= total_spend c2 /\
  last_interaction c1 <= last_interaction c2.

(** ** What it means for an encoder lookup to fail

    [encoder[column].transform([label])[0]] raises when the encoder has no
    such column, when the column's encoder rejects the label, or when it
    answers with no code at all. *)
Definition lookup_fails (enc : Encoder) (column : string) (label : value) : Prop :=
  (exists e : exn, encoder_getitem enc column = Raise e) \/
  (exists le : LabelEncoder,
      encoder_getitem enc column = Ok le /\
      ((exists e : exn, transform le [label] = Raise e) \/
       transform le [label] = Ok [])).

(** Whether a computation returned. *)
Definition is_ok {A} (r : result A) : bool :=
  match r with
  | Ok _ => true
  | Raise _ => false
  end.

(** ** More sample data *)

(** A predictor that raises on every call. *)
Definition failing_model : Model :=
  {| predict := fun _ => Raise (ValueError "bad input") |}.

Definition sample_actions : list action :=
  [ Edit "Age" (VNum 40); Edit "Gender" (VStr "Male"); Click sample_clock;
    Edit "Contract Length" (VNum 1); Click sample_clock ].

(** Widgets left at the defaults of a fresh session. *)
Definition sample_widget (feat_name : string) : value :=
  default VNone (fresh_session !! state_key feat_name).

(** An encoder with codes of its own: 10, 11, 12 for the genders and 20,
    21, 22 for the subscription tiers, in the order of the manual tables;
    it rejects every other column. *)
Definition offset_encoder : Encoder :=
  {| encoder_getitem := fun column =>
       if String.eqb column "Gender" then
         Ok {| transform := fun labels =>
                 Ok (map (fun v => (10 + dict_get manual_gender v 0)%Z) labels) |}
       else if String.eqb column "Subscription Type" then
         Ok {| transform := fun labels =>
                 Ok (map (fun v => (20 + dict_get manual_sub v 0)%Z) labels) |}
       else Raise (KeyError column) |}.

(** * Part II: properties *)

(** ** Comparisons and the built-ins *)

Lemma Qgt_bool_true (a b : Q) : Qgt_bool a b = true <-> b < a.
Proof.
  unfold Qgt_bool. rewrite negb_true_iff.
  destruct (Qle_bool a b) eqn:E.
  - apply Qle_bool_iff in E. split; [discriminate | lra].
  - split; [intros _ | reflexivity].
    apply Qnot_le_lt. intros H. apply Qle_bool_iff in H. congruence.
Qed.

Lemma Qgt_bool_false (a b : Q) : Qgt_bool a b = false <-> a <= b.
Proof.
  unfold Qgt_bool. rewrite negb_false_iff. apply Qle_bool_iff.
Qed.

Lemma Qle_bool_false (a b : Q) : Qle_bool a b = false <-> b < a.
Proof.
  rewrite <- (Qgt_bool_true a b). unfold Qgt_bool.
  now rewrite negb_true_iff.
Qed.

Lemma Qge_bool_true (a b : Q) : Qge_bool a b = true <-> b <= a.
Proof. unfold Qge_bool. apply Qle_bool_iff. Qed.

Lemma Qge_bool_false (a b : Q) : Qge_bool a b = false <-> a < b.
Proof. unfold Qge_bool. apply Qle_bool_false. Qed.

Ltac case_gt a b :=
  let E := fresh "E" in
  destruct (Qgt_bool a b) eqn:E;
  [apply Qgt_bool_true in E | apply Qgt_bool_false in E].

Ltac case_le a b :=
  let E := fresh "E" in
  destruct (Qle_bool a b) eqn:E;
  [apply Qle_bool_iff in E | apply Qle_bool_false in E].

Ltac case_ge a b :=
  let E := fresh "E" in
  destruct (Qge_bool a b) eqn:E;
  [apply Qge_bool_true in E | apply Qge_bool_false in E].

Lemma py_max_spec (a b : Q) :
  (a < b /\ py_max a b = b) \/ (b <= a /\ py_max a b = a).
Proof. unfold py_max. case_gt b a; [left | right]; split; auto. Qed.

Lemma py_min_spec (a b : Q) :
  (b < a /\ py_min a b = b) \/ (a <= b /\ py_min a b = a).
Proof. unfold py_min. case_gt a b; [left | right]; split; auto. Qed.

Lemma py_min_Qmin (a b : Q) : py_min a b == Qmin a b.
Proof.
  destruct (py_min_spec a b) as [[H ->] | [H ->]].
  - rewrite Q.min_r; lra.
  - rewrite Q.min_l; lra.
Qed.

Lemma py_clamp (x lo hi : Q) :
  lo <= hi -> py_min (py_max x lo) hi == clamp x lo hi.
Proof.
  intros Hlh. unfold clamp.
  destruct (py_max_spec x lo) as [[H1 ->] | [H1 ->]].
  - destruct (py_min_spec lo hi) as [[H2 ->] | [H2 ->]];
      case_le x lo; lra.
  - destruct (py_min_spec x hi) as [[H2 ->] | [H2 ->]];
      case_le x lo; try case_le hi x; lra.
Qed.

Lemma clamp_bounds (x lo hi : Q) : lo <= hi -> lo <= clamp x lo hi <= hi.
Proof. intros H. unfold clamp. case_le x lo; [lra |]. case_le hi x; lra. Qed.

(** ** Normalization *)

Lemma normalized_risk_low (r : Q) :
  r <= 2 -> normalized_risk r == clamp r 0 1 * 100.
Proof.
  intros H. unfold normalized_risk.
  case_gt r 2; [lra |]. rewrite py_clamp; lra.
Qed.

Lemma normalized_risk_high (r : Q) :
  2 < r -> normalized_risk r == Qmin r 100.
Proof.
  intros H. unfold normalized_risk.
  case_gt r 2; [apply py_min_Qmin | lra].
Qed.

Lemma normalized_risk_bounds (r : Q) : 0 <= normalized_risk r <= 100.
Proof.
  destruct (Qlt_le_dec 2 r) as [H | H].
  - rewrite (normalized_risk_high r H).
    destruct (Q.min_spec r 100) as [[? ->] | [? ->]]; lra.
  - rewrite (normalized_risk_low r H).
    pose proof (clamp_bounds r 0 1). lra.
Qed.

(** The same three examples in binary64 arithmetic: 0.42 * 100.0 rounds to
    42.0 exactly. *)
Lemma normalized_risk_binary64 :
  Binary64.normalized_risk 0.42 = 42%float /\
  Binary64.normalized_risk 75 = 75%float /\
  Binary64.normalized_risk 1.5 = 100%float.
Proof. repeat split; vm_compute; reflexivity. Qed.

(** Not-a-number is no real value and passes through unchanged. *)
Example normalized_risk_binary64_nan :
  Binary64.normalized_risk PrimFloat.nan = PrimFloat.nan /\
  Binary64.normalized_risk PrimFloat.infinity = 100%float /\
  Binary64.normalized_risk PrimFloat.neg_infinity = 0%float.
Proof. repeat split; vm_compute; reflexivity. Qed.

(** C1: for every raw output [r], the normalized risk is [clamp r 0 1 * 100]
    when [r <= 2] and [min r 100] when [r > 2]; it always lies in [0, 100];
    0.42 gives 42, 75 gives 75 and 1.5 gives 100. *)
Theorem normalized_risk_spec :
  (forall r : Q,
      (r <= 2 -> normalized_risk r == clamp r 0 1 * 100) /\
      (2 < r -> normalized_risk r == Qmin r 100) /\
      0 <= normalized_risk r <= 100) /\
  normalized_risk 0.42 == 42 /\
  normalized_risk 75 == 75 /\
  normalized_risk 1.5 == 100.
Proof.
  split; [| repeat split; vm_compute; reflexivity].
  intros r. split; [apply normalized_risk_low |].
  split; [apply normalized_risk_high | apply normalized_risk_bounds].
Qed.

Lemma normalized_risk_spec_witness :
  normalized_risk 1.5 == clamp 1.5 0 1 * 100 /\
  normalized_risk 75 == Qmin 75 100.
Proof.
  split.
  - apply (proj1 (proj1 normalized_risk_spec 1.5)). unfold Qle; simpl; lia.
  - apply (proj1 (proj2 (proj1 normalized_risk_spec 75))). unfold Qlt; simpl; lia.
Defined.

(** C10: the normalization is not monotone: every [r] in (1, 2] gives 100,
    every [r] in (2, 100] gives [r] itself, so 1.5 gives 100 and 2.5 gives
    2.5, and there are [a < b] whose normalized risks are in the opposite
    order. *)
Theorem normalized_risk_not_monotone :
  (forall r : Q, 1 < r <= 2 -> normalized_risk r == 100) /\
  (forall r : Q, 2 < r <= 100 -> normalized_risk r == r) /\
  normalized_risk 1.5 == 100 /\
  normalized_risk 2.5 == 2.5 /\
  (exists a b : Q, a < b /\ normalized_risk b < normalized_risk a) /\
  ~ (forall a b : Q, a <= b -> normalized_risk a <= normalized_risk b).
Proof.
  split; [| split].
  - intros r [H1 H2]. rewrite (normalized_risk_low r H2).
    unfold clamp. case_le r 0; [lra |]. case_le 1 r; lra.
  - intros r [H1 H2]. rewrite (normalized_risk_high r H1).
    rewrite Q.min_l; lra.
  - split; [vm_compute; reflexivity |].
    split; [vm_compute; reflexivity |].
    split.
    + exists 1.5, 2.5. split; vm_compute; reflexivity.
    + intros Hmono.
      assert (H : normalized_risk 1.5 <= normalized_risk 2.5)
        by (apply Hmono; unfold Qle; simpl; lia).
      revert H. vm_compute. intros H. now apply H.
Qed.

Lemma normalized_risk_not_monotone_witness :
  normalized_risk 1.5 == 100 /\ normalized_risk 2.5 == 2.5.
Proof.
  split.
  - apply (proj1 normalized_risk_not_monotone 1.5).
    split; [unfold Qlt | unfold Qle]; simpl; lia.
  - apply (proj1 (proj2 normalized_risk_not_monotone) 2.5).
    split; [unfold Qlt | unfold Qle]; simpl; lia.
Defined.

(** ** Views drawn once a score exists *)

Lemma when_scored_num {A} (st : session_state) (view : Q -> result A) (r : Q) :
  st !! "churn_risk_score" = Some (VNum r) ->
  when_scored st view = (a ← view r; mret (Some a)).
Proof. intros H. unfold when_scored, getitem. now rewrite H. Qed.

Lemma when_scored_none {A} (st : session_state) (view : Q -> result A) :
  st !! "churn_risk_score" = Some VNone ->
  when_scored st view = Ok None.
Proof. intros H. unfold when_scored, getitem. now rewrite H. Qed.

Lemma result_view_scored (st : session_state) (r : Q) :
  st !! "churn_risk_score" = Some (VNum r) ->
  result_view st = Ok (Some (primary_risk_output r)).
Proof. intros H. unfold result_view. now rewrite (when_scored_num _ _ r H). Qed.

(** ** Classification bands *)

Lemma primary_risk_output_cases (r : Q) :
  (60 < r /\ title_text (primary_risk_output r) = band_title high) \/
  (30 < r <= 60 /\ title_text (primary_risk_output r) = band_title moderate) \/
  (r <= 30 /\ title_text (primary_risk_output r) = band_title secure).
Proof.
  unfold primary_risk_output.
  case_gt r 60; [left; split; [lra | reflexivity] | right].
  case_gt r 30; [left | right]; (split; [lra | reflexivity]).
Qed.

(** C3: the title the result view shows is the one of band "high" exactly
    when [r > 60], of "moderate" exactly when [30 < r <= 60] and of "secure"
    exactly when [r <= 30]; 60 is moderate, 60.1 is high and 30 is secure. *)
Theorem classification_bands :
  (forall r : Q,
      (title_text (primary_risk_output r) = band_title high <-> 60 < r) /\
      (title_text (primary_risk_output r) = band_title moderate <-> 30 < r <= 60) /\
      (title_text (primary_risk_output r) = band_title secure <-> r <= 30)) /\
  title_text (primary_risk_output 60) = band_title moderate /\
  title_text (primary_risk_output 60.1) = band_title high /\
  title_text (primary_risk_output 30) = band_title secure.
Proof.
  split; [| repeat split; reflexivity].
  intros r.
  destruct (primary_risk_output_cases r) as [[H ->] | [[H ->] | [H ->]]];
    repeat split; intros; try discriminate; try reflexivity; lra.
Qed.

(** ** The status of the exported payload *)

Lemma json_payload_status (sess_id ts : value) (r : Q) (telemetry : list (string * value)) :
  json_get ["churn_prediction"; "status"] (json_payload sess_id ts r telemetry)
  = Some (JString (if Qge_bool r 50 then "High Risk" else "Secure")).
Proof. reflexivity. Qed.

(** C9: the status of the exported payload is "High Risk" exactly when the
    risk is at least 50 and "Secure" otherwise; a risk of 55 is "moderate" in
    the result view and "High Risk" in the export. *)
Theorem export_status_threshold :
  (forall (sess_id ts : value) (r : Q) (telemetry : list (string * value)),
      let status :=
        json_get ["churn_prediction"; "status"] (json_payload sess_id ts r telemetry) in
      (status = Some (JString "High Risk") <-> 50 <= r) /\
      (status = Some (JString "Secure") <-> r < 50)) /\
  title_text (primary_risk_output 55) = band_title moderate /\
  (forall (sess_id ts : value) (telemetry : list (string * value)),
      json_get ["churn_prediction"; "status"] (json_payload sess_id ts 55 telemetry)
      = Some (JString "High Risk")) /\
  (exists (j : json) (df : frame),
      result_view scored_session = Ok (Some (primary_risk_output 55)) /\
      dossier scored_session = Ok (Some (j, df)) /\
      json_get ["churn_prediction"; "status"] j = Some (JString "High Risk")).
Proof.
  split; [| split; [reflexivity | split; [reflexivity |]]].
  - intros sess_id ts r telemetry status. subst status.
    rewrite json_payload_status.
    case_ge r 50; repeat split; intros; try discriminate; try reflexivity; lra.
  - eexists _, _. split; [| split].
    + vm_compute. reflexivity.
    + vm_compute. reflexivity.
    + reflexivity.
Qed.

(** ** Revenue simulation *)

Lemma py_div_ok (a b : Q) : ~ b == 0 -> py_div a b = Ok (a / b).
Proof.
  intros H. unfold py_div.
  destruct (Qeq_bool b 0) eqn:E; [| reflexivity].
  apply Qeq_bool_iff in E. contradiction.
Qed.

Lemma py_div_zero (a b : Q) : b == 0 -> py_div a b = Raise ZeroDivisionError.
Proof.
  intros H. unfold py_div.
  apply Qeq_bool_iff in H. now rewrite H.
Qed.

(** C7: with total spend [s], contract length [c] and risk fraction
    [p = score / 100], the simulation computes monthly revenue [s / (c + 1)],
    annual revenue [12 * monthly], at-risk share [annual * p] and secured
    share [annual * (1 - p)]; with s = 1200, c = 11 and a risk of 25% these
    are 100, 1200, 300 and 900.  The division needs [c + 1] to be non-zero,
    which every contract length the slider offers satisfies. *)
Theorem revenue_split :
  (forall s c score : Q,
      ~ c + 1 == 0 ->
      let p := score / 100 in
      exists rev : revenue,
        revenue_exposure score s c = Ok rev /\
        mrr rev == s / (c + 1) /\
        annual_revenue rev == 12 * mrr rev /\
        revenue_at_risk rev == annual_revenue rev * p /\
        revenue_secured rev == annual_revenue rev * (1 - p)) /\
  (forall c : Q, valid_contract_length c -> ~ c + 1 == 0) /\
  (exists rev : revenue,
      revenue_exposure 25 1200 11 = Ok rev /\
      25 / 100 == 0.25 /\
      mrr rev == 100 /\ annual_revenue rev == 1200 /\
      revenue_secured rev == 900 /\ revenue_at_risk rev == 300).
Proof.
  split; [| split].
  - intros s c score Hc p. unfold revenue_exposure.
    rewrite (py_div_ok score 100) by (intros H; discriminate H).
    rewrite (py_div_ok s (c + 1) Hc). cbn.
    eexists. split; [reflexivity |]. cbn. subst p.
    repeat split; try reflexivity; ring.
  - intros c [H1 H2]. lra.
  - eexists. split; [vm_compute; reflexivity |].
    repeat split; vm_compute; reflexivity.
Qed.

Lemma revenue_split_witness :
  exists rev : revenue,
    revenue_exposure 25 1200 11 = Ok rev /\
    mrr rev == 1200 / (11 + 1) /\
    annual_revenue rev == 12 * mrr rev /\
    revenue_at_risk rev == annual_revenue rev * (25 / 100) /\
    revenue_secured rev == annual_revenue rev * (1 - 25 / 100).
Proof.
  apply (proj1 revenue_split 1200 11 25).
  vm_compute. discriminate.
Defined.

(** ** Categorical encoding *)

Lemma encode_categoricals_lookup_ok (encoder : option Encoder) (g s : value) (codes : Z * Z) :
  encoder_lookup encoder g s = Ok codes ->
  encode_categoricals encoder g s = Ok codes.
Proof. intros H. unfold encode_categoricals. now rewrite H. Qed.

Lemma encode_categoricals_lookup_raise (encoder : option Encoder) (g s : value) (e : exn) :
  encoder_lookup encoder g s = Raise e ->
  encode_categoricals encoder g s
  = Ok (dict_get manual_gender g 0, dict_get manual_sub s 0).
Proof. intros H. unfold encode_categoricals. now rewrite H. Qed.

Lemma encoder_lookup_absent (g s : value) :
  encoder_lookup None g s = Raise (ValueError "No encoder").
Proof. reflexivity. Qed.

(** The encoding step returns for every pair of inputs, whatever they hold. *)
Lemma encode_categoricals_total (encoder : option Encoder) (g s : value) :
  exists codes : Z * Z, encode_categoricals encoder g s = Ok codes.
Proof.
  destruct (encoder_lookup encoder g s) as [codes | e] eqn:E.
  - exists codes. now apply encode_categoricals_lookup_ok.
  - eexists. now apply (encode_categoricals_lookup_raise _ _ _ e).
Qed.

Lemma manual_gender_table (label : string) :
  In label ["Female"; "Male"; "Other"] ->
  assoc label [("Female", 0%Z); ("Male", 1%Z); ("Other", 2%Z)]
  = Some (dict_get manual_gender (VStr label) 0).
Proof.
  intros [<- | [<- | [<- | []]]]; vm_compute; reflexivity.
Qed.

Lemma manual_sub_table (label : string) :
  In label ["Basic"; "Standard"; "Premium"] ->
  assoc label [("Basic", 0%Z); ("Premium", 1%Z); ("Standard", 2%Z)]
  = Some (dict_get manual_sub (VStr label) 0).
Proof.
  intros [<- | [<- | [<- | []]]]; vm_compute; reflexivity.
Qed.

Lemma encoder_lookup_codes (enc : Encoder) (g s : value)
    (le_gender le_sub : LabelEncoder) (gender_code sub_code : Z)
    (gender_rest sub_rest : list Z) :
  encoder_getitem enc "Gender" = Ok le_gender ->
  transform le_gender [g] = Ok (gender_code :: gender_rest) ->
  encoder_getitem enc "Subscription Type" = Ok le_sub ->
  transform le_sub [s] = Ok (sub_code :: sub_rest) ->
  encoder_lookup (Some enc) g s = Ok (gender_code, sub_code).
Proof.
  intros H1 H2 H3 H4. unfold encoder_lookup.
  rewrite H1. cbn. rewrite H2. cbn. rewrite H3. cbn. rewrite H4. reflexivity.
Qed.

Lemma encoder_lookup_gender_fails (enc : Encoder) (g s : value) :
  lookup_fails enc "Gender" g ->
  exists e : exn, encoder_lookup (Some enc) g s = Raise e.
Proof.
  unfold encoder_lookup.
  intros [[e H] | (le & H & [[e H'] | H'])]; rewrite H; cbn;
    try (rewrite H'; cbn); eauto.
Qed.

Lemma encoder_lookup_sub_fails (enc : Encoder) (g s : value) :
  lookup_fails enc "Subscription Type" s ->
  exists e : exn, encoder_lookup (Some enc) g s = Raise e.
Proof.
  intros Hs. unfold encoder_lookup.
  destruct (encoder_getitem enc "Gender") as [leg | e]; cbn; [| eauto].
  destruct (transform leg [g]) as [[| gc gr] | e]; cbn; eauto.
  destruct Hs as [[e H] | (le & H & [[e H'] | H'])]; rewrite H; cbn;
    try (rewrite H'; cbn); eauto.
Qed.

(** C5: for every valid record and every encoder, loaded or absent, the
    encoding step returns a pair of integer codes and does not raise.  When
    the loaded encoder has both columns and each column's encoder answers
    the label with a code, the pair is the code the "Gender" encoder gives
    for the gender and the code the "Subscription Type" encoder gives for
    the tier.  Otherwise (encoder absent, or either lookup failing: a column
    missing, a label rejected, no code answered) both codes come from the
    fixed tables Female 0, Male 1, Other 2 and Basic 0, Premium 1,
    Standard 2. *)
Theorem encoding_never_raises (encoder : option Encoder) (c : customer) :
  valid_categoricals c ->
  let g := VStr (gender c) in
  let s := VStr (subscription_type c) in
  exists gender_val sub_val : Z,
    encode_categoricals encoder g s = Ok (gender_val, sub_val) /\
    (forall (enc : Encoder) (le_gender le_sub : LabelEncoder)
            (gender_code sub_code : Z) (gender_rest sub_rest : list Z),
        encoder = Some enc ->
        encoder_getitem enc "Gender" = Ok le_gender ->
        transform le_gender [g] = Ok (gender_code :: gender_rest) ->
        encoder_getitem enc "Subscription Type" = Ok le_sub ->
        transform le_sub [s] = Ok (sub_code :: sub_rest) ->
        gender_val = gender_code /\ sub_val = sub_code) /\
    ((encoder = None \/
      exists enc : Encoder,
        encoder = Some enc /\
        (lookup_fails enc "Gender" g \/ lookup_fails enc "Subscription Type" s)) ->
     assoc (gender c) [("Female", 0%Z); ("Male", 1%Z); ("Other", 2%Z)]
     = Some gender_val /\
     assoc (subscription_type c) [("Basic", 0%Z); ("Premium", 1%Z); ("Standard", 2%Z)]
     = Some sub_val).
Proof.
  intros [Hg Hs] g s.
  destruct (encoder_lookup encoder g s) as [[gv sv] | e] eqn:E.
  - exists gv, sv. split; [now apply encode_categoricals_lookup_ok |]. split.
    + intros enc leg les gc sc gr sr -> H1 H2 H3 H4.
      rewrite (encoder_lookup_codes enc g s leg les gc sc gr sr H1 H2 H3 H4) in E.
      injection E as <- <-. split; reflexivity.
    + intros [-> | (enc & -> & [Hf | Hf])].
      * rewrite encoder_lookup_absent in E. discriminate E.
      * destruct (encoder_lookup_gender_fails enc g s Hf) as [e He]. congruence.
      * destruct (encoder_lookup_sub_fails enc g s Hf) as [e He]. congruence.
  - exists (dict_get manual_gender g 0), (dict_get manual_sub s 0).
    split; [now apply (encode_categoricals_lookup_raise _ _ _ e) |]. split.
    + intros enc leg les gc sc gr sr -> H1 H2 H3 H4.
      rewrite (encoder_lookup_codes enc g s leg les gc sc gr sr H1 H2 H3 H4) in E.
      discriminate E.
    + intros _. subst g s.
      now rewrite (manual_gender_table _ Hg), (manual_sub_table _ Hs).
Qed.

Lemma encoding_never_raises_witness :
  encode_categoricals (Some offset_encoder) (VStr "Male") (VStr "Premium")
  = Ok (11%Z, 21%Z) /\
  encode_categoricals (Some gender_only_encoder) (VStr "Male") (VStr "Premium")
  = Ok (1%Z, 1%Z).
Proof.
  split.
  - destruct (encoding_never_raises (Some offset_encoder)
                {| age := 35; gender := "Male"; support_calls := 2;
                   payment_delay := 5; subscription_type := "Premium";
                   contract_length := 12; total_spend := 1500;
                   last_interaction := 14 |})
      as (gv & sv & Henc & Hcodes & _).
    + split; simpl; auto.
    + destruct (Hcodes offset_encoder _ _ 11%Z 21%Z [] [] eq_refl eq_refl eq_refl
                  eq_refl eq_refl) as [-> ->].
      exact Henc.
  - destruct (encoding_never_raises (Some gender_only_encoder)
                {| age := 35; gender := "Male"; support_calls := 2;
                   payment_delay := 5; subscription_type := "Premium";
                   contract_length := 12; total_spend := 1500;
                   last_interaction := 14 |})
      as (gv & sv & Henc & _ & Hfallback).
    + split; simpl; auto.
    + destruct Hfallback as [Hg Hs].
      * right. exists gender_only_encoder. split; [reflexivity |].
        right. left. eexists. reflexivity.
      * simpl in Hg, Hs. injection Hg as <-. injection Hs as <-. exact Henc.
Defined.

(** ** Feature assembly *)

Lemma holds_lookups (st : session_state) (c : customer) :
  holds st c ->
  st !! "input_Age" = Some (VNum (age c)) /\
  st !! "input_Gender" = Some (VStr (gender c)) /\
  st !! "input_Support Calls" = Some (VNum (support_calls c)) /\
  st !! "input_Payment Delay" = Some (VNum (payment_delay c)) /\
  st !! "input_Subscription Type" = Some (VStr (subscription_type c)) /\
  st !! "input_Contract Length" = Some (VNum (contract_length c)) /\
  st !! "input_Total Spend" = Some (VNum (total_spend c)) /\
  st !! "input_Last Interaction" = Some (VNum (last_interaction c)).
Proof.
  unfold holds, inputs_of. rewrite !Forall_cons. cbn. tauto.
Qed.

Lemma numeric_input_num (st : session_state) (feat_name : string) (q : Q) :
  st !! state_key feat_name = Some (VNum q) -> numeric_input st feat_name = Ok q.
Proof. intros H. unfold numeric_input, getitem. now rewrite H. Qed.

Lemma payload_of_record (encoder : option Encoder) (st : session_state) (c : customer)
    (gender_val sub_val : Z) :
  holds st c ->
  encode_categoricals encoder (VStr (gender c)) (VStr (subscription_type c))
  = Ok (gender_val, sub_val) ->
  payload encoder st
  = Ok [[ age c; inject_Z gender_val; support_calls c; payment_delay c;
          inject_Z sub_val; contract_length c; total_spend c; last_interaction c ]].
Proof.
  intros H Henc. apply holds_lookups in H.
  destruct H as (Ha & Hg & Hsc & Hpd & Hst & Hcl & Hts & Hli).
  unfold payload, getitem. rewrite Hg, Hst. cbn. rewrite Henc. cbn.
  rewrite !(numeric_input_num st _ _ Ha), !(numeric_input_num st _ _ Hsc),
    !(numeric_input_num st _ _ Hpd), !(numeric_input_num st _ _ Hcl),
    !(numeric_input_num st _ _ Hts), !(numeric_input_num st _ _ Hli).
  reflexivity.
Qed.

(** C6: for every record the store holds and every encoder, loaded or
    absent, the array handed to the predictor is one row of exactly 8
    numbers in the order age, gender code, support calls, payment delay,
    subscription code, contract length, total spend, last interaction, where
    the two codes are those of the encoding step; the run invokes the
    predictor on that row. *)
Theorem payload_canonical_order (encoder : option Encoder) (st : session_state)
    (c : customer) :
  holds st c ->
  exists gender_val sub_val : Z,
    encode_categoricals encoder (VStr (gender c)) (VStr (subscription_type c))
    = Ok (gender_val, sub_val) /\
    let row := [ age c; inject_Z gender_val; support_calls c; payment_delay c;
                 inject_Z sub_val; contract_length c; total_spend c;
                 last_interaction c ] in
    payload encoder st = Ok [row] /\
    length row = 8%nat /\
    length row = length FEATURE_VECTORS /\
    forall (m : Model) (clk : clock),
      evaluate (Some m) encoder clk st
      = (preds ← predict m [row];
         raw_pred ← index0 preds;
         Ok (<["compute_latency" := VNum (py_round3 (end_time clk - start_time clk))]>
               (<["timestamp" := VStr (now clk)]>
                  (<["churn_risk_score" := VNum (normalized_risk raw_pred)]> st)),
             [])).
Proof.
  intros H.
  destruct (encode_categoricals_total encoder (VStr (gender c))
              (VStr (subscription_type c))) as [[gv sv] Henc].
  exists gv, sv. split; [exact Henc |].
  intros row. pose proof (payload_of_record encoder st c gv sv H Henc) as Hp.
  split; [exact Hp |]. split; [reflexivity |]. split; [reflexivity |].
  intros m clk. unfold evaluate. rewrite Hp. reflexivity.
Qed.

Lemma payload_canonical_order_witness :
  payload (Some constant_encoder) fresh_session
  = Ok [[35; 5; 2; 5; 5; 12; 1500; 14]].
Proof.
  destruct (payload_canonical_order (Some constant_encoder) fresh_session
              default_customer) as (gv & sv & Henc & Hp & _).
  - unfold holds. repeat constructor.
  - vm_compute in Henc. injection Henc as <- <-. exact Hp.
Defined.

(** ** Refusal of the run without a predictor *)

Lemma evaluate_refused (encoder : option Encoder) (clk : clock) (st : session_state) :
  evaluate None encoder clk st = Ok (st, [st_error SYSTEM_HALT]).
Proof. reflexivity. Qed.

Lemma state_key_not_result (feat_name : string) :
  state_key feat_name <> "churn_risk_score" /\
  state_key feat_name <> "timestamp" /\
  state_key feat_name <> "compute_latency".
Proof. unfold state_key. cbn. repeat split; discriminate. Qed.

Lemma initialize_no_prediction (uuid8 : string) : no_prediction (initialize uuid8 ∅).
Proof. repeat split; vm_compute; reflexivity. Qed.

Lemma step_refused_no_prediction (encoder : option Encoder) (st : session_state)
    (a : action) :
  no_prediction st ->
  exists st' : session_state, step None encoder st a = Ok st' /\ no_prediction st'.
Proof.
  intros (Hs & Ht & Hl). destruct a as [feat_name v | clk].
  - eexists. split; [reflexivity |].
    destruct (state_key_not_result feat_name) as (N1 & N2 & N3).
    unfold no_prediction, write_input.
    rewrite !lookup_insert_ne by assumption. auto.
  - exists st. split; [reflexivity | repeat split; assumption].
Qed.

Lemma run_refused_no_prediction (encoder : option Encoder) (actions : list action) :
  forall st : session_state,
    no_prediction st ->
    exists st' : session_state, run None encoder st actions = Ok st' /\ no_prediction st'.
Proof.
  induction actions as [| a rest IH]; intros st H.
  - exists st. split; [reflexivity | exact H].
  - destruct (step_refused_no_prediction encoder st a H) as (st1 & Hstep & H1).
    destruct (IH st1 H1) as (st' & Hrun & H').
    exists st'. split; [| exact H'].
    cbn. rewrite Hstep. exact Hrun.
Qed.

(** C4: with no predictor loaded, a triggered run is refused with the error
    message and returns the store it was given, unchanged, so the score, the
    timestamp and the latency are not written; and from a fresh session,
    after any sequence of edits and runs, the Prediction Result still holds
    no score and no timestamp. *)
Theorem refused_run_leaves_store (encoder : option Encoder) :
  (forall (clk : clock) (st : session_state),
      evaluate None encoder clk st = Ok (st, [st_error SYSTEM_HALT])) /\
  (forall (uuid8 : string) (actions : list action),
      exists st' : session_state,
        run None encoder (initialize uuid8 ∅) actions = Ok st' /\
        st' !! "churn_risk_score" = Some VNone /\
        st' !! "timestamp" = Some VNone /\
        st' !! "compute_latency" = Some (VNum 0)).
Proof.
  split; [intros; apply evaluate_refused |].
  intros uuid8 actions.
  apply run_refused_no_prediction, initialize_no_prediction.
Qed.

(** ** Cohort simulation *)

Section CohortProperties.

Context {rng_state : Type}.
Variable np_random_seed : Z -> rng_state.
Variable np_random_normal1 : Q -> Q -> rng_state -> Q * rng_state.

Lemma np_random_normal_length (loc scale : Q) (size : nat) :
  forall g : rng_state,
    length (fst (np_random_normal np_random_normal1 loc scale size g)) = size.
Proof.
  induction size as [| size IH]; intros g; [reflexivity |].
  cbn. destruct (np_random_normal1 loc scale g) as [x g1].
  specialize (IH g1).
  destruct (np_random_normal np_random_normal1 loc scale size g1) as [xs g2].
  cbn in *. now rewrite IH.
Qed.

Lemma np_clip_bounds (a : list Q) (a_min a_max : Q) :
  a_min <= a_max ->
  Forall (fun x => a_min <= x <= a_max) (np_clip a a_min a_max).
Proof.
  intros H. unfold np_clip. apply Forall_map, Forall_true. intros x. cbn.
  destruct (py_max_spec x a_min) as [[H1 ->] | [H1 ->]].
  - destruct (py_min_spec a_min a_max) as [[H2 ->] | [H2 ->]]; lra.
  - destruct (py_min_spec x a_max) as [[H2 ->] | [H2 ->]]; lra.
Qed.

(** The cohort is the clipped sample drawn from the state the seed
    installs; the state the view finds plays no part. *)
Lemma simulated_cohort_seeded (base_risk : Q) (g : rng_state) :
  fst (simulated_cohort np_random_seed np_random_normal1 base_risk g)
  = np_clip (fst (np_random_normal np_random_normal1 base_risk 7 100
                    (np_random_seed 42))) 0 100.
Proof.
  unfold simulated_cohort.
  now destruct (np_random_normal np_random_normal1 base_risk 7 100
                  (np_random_seed 42)).
Qed.

Lemma cohort_view_scored (st : session_state) (g : rng_state) (r : Q) :
  st !! "churn_risk_score" = Some (VNum r) ->
  fst (cohort_view np_random_seed np_random_normal1 st g)
  = Ok (Some (fst (simulated_cohort np_random_seed np_random_normal1 r g))).
Proof.
  intros H. unfold cohort_view.
  rewrite (when_scored_num st _ r H). cbn.
  now destruct (simulated_cohort np_random_seed np_random_normal1 r g).
Qed.

(** C8: the cohort is a function of the base risk alone: two runs with the
    same base risk give the same 100 samples, element for element,
    whatever state the generator was in before each run (also when the
    second run follows the first); every sample lies in [0, 100]. *)
Theorem cohort_deterministic (base_risk : Q) (g1 g2 : rng_state) :
  let run1 := simulated_cohort np_random_seed np_random_normal1 base_risk g1 in
  let run2 := simulated_cohort np_random_seed np_random_normal1 base_risk g2 in
  let rerun := simulated_cohort np_random_seed np_random_normal1 base_risk (snd run1) in
  fst run1 = fst run2 /\
  fst rerun = fst run1 /\
  length (fst run1) = 100%nat /\
  Forall (fun x => 0 <= x <= 100) (fst run1) /\
  (forall st1 st2 : session_state,
      st1 !! "churn_risk_score" = Some (VNum base_risk) ->
      st2 !! "churn_risk_score" = Some (VNum base_risk) ->
      fst (cohort_view np_random_seed np_random_normal1 st1 g1)
      = fst (cohort_view np_random_seed np_random_normal1 st2 g2) /\
      fst (cohort_view np_random_seed np_random_normal1 st1 g1)
      = Ok (Some (fst run1))).
Proof.
  intros run1 run2 rerun. subst run1 run2 rerun.
  rewrite !simulated_cohort_seeded.
  split; [reflexivity |]. split; [reflexivity |].
  split; [| split].
  - unfold np_clip. now rewrite length_map, np_random_normal_length.
  - apply np_clip_bounds. lra.
  - intros st1 st2 H1 H2.
    rewrite (cohort_view_scored st1 g1 base_risk H1),
      (cohort_view_scored st2 g2 base_risk H2), !simulated_cohort_seeded.
    split; reflexivity.
Qed.

End CohortProperties.

Lemma cohort_deterministic_witness :
  fst (cohort_view lcg_seed lcg_normal1 scored_session 0%Z)
  = fst (cohort_view lcg_seed lcg_normal1 (write_input "Age" (VNum 40) scored_session) 977%Z).
Proof.
  apply (cohort_deterministic lcg_seed lcg_normal1 55 0%Z 977%Z);
    vm_compute; reflexivity.
Defined.

(** ** Initialized stores *)

Lemma init_key_present (key : string) (v : value) (st : session_state) :
  is_Some (init_key key v st !! key).
Proof.
  unfold init_key. destruct (st !! key) eqn:E.
  - rewrite E. eauto.
  - rewrite lookup_insert_eq. eauto.
Qed.

Lemma init_key_keeps (key k : string) (v : value) (st : session_state) :
  is_Some (st !! k) -> is_Some (init_key key v st !! k).
Proof.
  intros H. unfold init_key. destruct (st !! key) eqn:E; [exact H |].
  destruct (decide (key = k)) as [-> | N].
  - rewrite lookup_insert_eq. eauto.
  - now rewrite lookup_insert_ne.
Qed.

Lemma init_feature_keeps (feature k : string) (st : session_state) :
  is_Some (st !! k) -> is_Some (init_feature st feature !! k).
Proof. apply init_key_keeps. Qed.

Lemma fold_init_feature_keeps (features : list string) (k : string) :
  forall st : session_state,
    is_Some (st !! k) -> is_Some (fold_left init_feature features st !! k).
Proof.
  induction features as [| f rest IH]; intros st H; [exact H |].
  cbn. apply IH, init_feature_keeps, H.
Qed.

Lemma fold_init_feature_present (features : list string) (feature : string) :
  forall st : session_state,
    In feature features ->
    is_Some (fold_left init_feature features st !! state_key feature).
Proof.
  induction features as [| f rest IH]; intros st H; [destruct H |].
  cbn. destruct H as [-> | H].
  - apply fold_init_feature_keeps. unfold init_feature. apply init_key_present.
  - now apply IH.
Qed.

Lemma initialize_initialized (uuid8 : string) (st : session_state) :
  initialized (initialize uuid8 st).
Proof.
  unfold initialized, store_keys, initialize.
  apply Forall_cons. split.
  - do 3 apply init_key_keeps. apply fold_init_feature_keeps, init_key_present.
  - apply Forall_app. split.
    + apply Forall_map, Forall_forall. intros t Ht. cbv beta.
      do 3 apply init_key_keeps.
      apply fold_init_feature_present, list_elem_of_In, Ht.
    + repeat apply Forall_cons_2; try apply Forall_nil_2.
      * do 2 apply init_key_keeps. apply init_key_present.
      * apply init_key_keeps, init_key_present.
      * apply init_key_present.
Qed.

Lemma initialized_insert (key : string) (v : value) (st : session_state) :
  initialized st -> initialized (<[key := v]> st).
Proof.
  unfold initialized. intros Hst.
  eapply Forall_impl; [exact Hst |]. cbv beta. intros k H.
  destruct (decide (key = k)) as [-> | N].
  - rewrite lookup_insert_eq. eauto.
  - now rewrite lookup_insert_ne.
Qed.

(** Every interaction keeps the store initialized. *)
Lemma step_initialized (model : option Model) (encoder : option Encoder)
    (st st' : session_state) (a : action) :
  initialized st -> step model encoder st a = Ok st' -> initialized st'.
Proof.
  intros H. destruct a as [feat_name v | clk]; cbn.
  - intros [= <-]. now apply initialized_insert.
  - unfold evaluate. destruct model as [m |]; [| intros [= <-]; exact H].
    destruct (payload encoder st) as [rows | e]; [| discriminate]. cbn.
    destruct (predict m rows) as [preds | e]; [| discriminate]. cbn.
    destruct (index0 preds) as [raw_pred | e]; [| discriminate]. cbn.
    intros [= <-]. now do 3 apply initialized_insert.
Qed.

Lemma initialized_lookups (st : session_state) :
  initialized st ->
  is_Some (st !! "session_id") /\
  is_Some (st !! "timestamp") /\
  customer_telemetry st = Ok (telemetry_of st).
Proof.
  unfold initialized, store_keys. cbn. rewrite !Forall_cons.
  intros (Hid & H1 & H2 & H3 & H4 & H5 & H6 & H7 & H8 & _ & Hts & _).
  split; [exact Hid |]. split; [exact Hts |].
  destruct H1 as [v1 E1], H2 as [v2 E2], H3 as [v3 E3], H4 as [v4 E4],
    H5 as [v5 E5], H6 as [v6 E6], H7 as [v7 E7], H8 as [v8 E8].
  unfold customer_telemetry, telemetry_of, getitem. cbn.
  rewrite E1, E2, E3, E4, E5, E6, E7, E8. reflexivity.
Qed.

(** ** The two exports *)

Lemma json_data_of_value (v : value) : json_data (json_of_value v) = [v].
Proof. now destruct v. Qed.

Lemma csv_data_initialized (st : session_state) (ts : value) (r : Q) :
  csv_data ts r (telemetry_of st)
  = telemetry_of st ++ [("Churn_Risk_Pct", VNum r); ("Timestamp", ts)].
Proof. reflexivity. Qed.

Lemma json_data_payload (st : session_state) (sess_id ts : value) (r : Q) :
  json_data (json_payload sess_id ts r (telemetry_of st))
  = [ sess_id; ts; VStr "DecisionTreeRegressor"; VNum 0.930; VNum r;
      VStr (if Qge_bool r 50 then "High Risk" else "Secure") ]
    ++ map snd (telemetry_of st).
Proof.
  unfold json_payload, telemetry_of. cbn.
  rewrite !json_data_of_value. reflexivity.
Qed.

Lemma dossier_initialized (st : session_state) (r : Q) :
  initialized st ->
  st !! "churn_risk_score" = Some (VNum r) ->
  exists sess_id ts : value,
    st !! "session_id" = Some sess_id /\
    st !! "timestamp" = Some ts /\
    dossier st
    = Ok (Some (json_payload sess_id ts r (telemetry_of st),
                csv_data ts r (telemetry_of st))).
Proof.
  intros Hinit Hscore.
  destruct (initialized_lookups st Hinit) as ([sess_id Hid] & [ts Hts] & Htel).
  exists sess_id, ts. split; [exact Hid |]. split; [exact Hts |].
  unfold dossier. rewrite (when_scored_num st _ r Hscore).
  unfold getitem. rewrite Hts, Hid, Htel. reflexivity.
Qed.

(** C2, as amended: whenever the dossier is generated, the CSV frame has the
    columns of the eight features followed by Churn_Risk_Pct and Timestamp;
    each feature cell is the value of the same name in the payload's
    customer_telemetry, the Churn_Risk_Pct cell is the payload's
    risk_score_percentage and the Timestamp cell is the payload's metadata
    timestamp; the payload carries this data and four values more, which the
    frame has no column for: transaction id, model architecture, validation
    accuracy and status. *)
Theorem exports_content (st : session_state) (r : Q) :
  initialized st ->
  st !! "churn_risk_score" = Some (VNum r) ->
  exists (sess_id ts : value) (j : json) (df : frame),
    st !! "session_id" = Some sess_id /\
    st !! "timestamp" = Some ts /\
    dossier st = Ok (Some (j, df)) /\
    columns df = FEATURE_VECTORS ++ ["Churn_Risk_Pct"; "Timestamp"] /\
    frame_data df = map snd (telemetry_of st) ++ [VNum r; ts] /\
    (forall t : string,
        In t FEATURE_VECTORS ->
        json_get ["customer_telemetry"; t] j = json_of_value <$> assoc t df) /\
    json_get ["churn_prediction"; "risk_score_percentage"] j
    = json_of_value <$> assoc "Churn_Risk_Pct" df /\
    json_get ["metadata"; "timestamp"] j = json_of_value <$> assoc "Timestamp" df /\
    json_data j
    ≡ₚ frame_data df
       ++ [ sess_id; VStr "DecisionTreeRegressor"; VNum 0.930;
            VStr (if Qge_bool r 50 then "High Risk" else "Secure") ].
Proof.
  intros Hinit Hscore.
  destruct (dossier_initialized st r Hinit Hscore) as (sess_id & ts & Hid & Hts & Hd).
  exists sess_id, ts. eexists _, _.
  split; [exact Hid |]. split; [exact Hts |]. split; [exact Hd |].
  rewrite json_data_payload, csv_data_initialized.
  split; [reflexivity |]. split; [reflexivity |].
  split; [| split; [reflexivity | split; [reflexivity |]]].
  - intros t Ht. cbn in Ht.
    destruct Ht as [<- | [<- | [<- | [<- | [<- | [<- | [<- | [<- | []]]]]]]]];
      reflexivity.
  - unfold frame_data. rewrite map_app. cbn [map snd app].
    generalize (map snd (telemetry_of st)). intros T.
    solve_Permutation.
Qed.

Lemma exports_content_witness :
  exists (sess_id ts : value) (j : json) (df : frame),
    scored_session !! "session_id" = Some sess_id /\
    scored_session !! "timestamp" = Some ts /\
    dossier scored_session = Ok (Some (j, df)) /\
    columns df = FEATURE_VECTORS ++ ["Churn_Risk_Pct"; "Timestamp"] /\
    frame_data df = map snd (telemetry_of scored_session) ++ [VNum 55; ts] /\
    (forall t : string,
        In t FEATURE_VECTORS ->
        json_get ["customer_telemetry"; t] j = json_of_value <$> assoc t df) /\
    json_get ["churn_prediction"; "risk_score_percentage"] j
    = json_of_value <$> assoc "Churn_Risk_Pct" df /\
    json_get ["metadata"; "timestamp"] j = json_of_value <$> assoc "Timestamp" df /\
    json_data j
    ≡ₚ frame_data df
       ++ [ sess_id; VStr "DecisionTreeRegressor"; VNum 0.930;
            VStr (if Qge_bool 55 50 then "High Risk" else "Secure") ].
Proof.
  apply (exports_content scored_session 55).
  - unfold initialized. repeat constructor; vm_compute; eexists; reflexivity.
  - vm_compute. reflexivity.
Defined.

(** C2, as stated, fails: in a session with a score of 55 the payload
    carries 14 values and the frame 10, so the two exports do not hold the
    same data in any order; the model architecture, for one, is in the
    payload only. *)
Lemma exports_same_content_fails :
  ~ (forall (st : session_state) (j : json) (df : frame),
        dossier st = Ok (Some (j, df)) -> same_content j df).
Proof.
  intros H.
  assert (Hd : exists (j : json) (df : frame),
             dossier scored_session = Ok (Some (j, df)) /\
             length (json_data j) = 14%nat /\ length (frame_data df) = 10%nat).
  { eexists _, _. split; [vm_compute; reflexivity |]. split; reflexivity. }
  destruct Hd as (j & df & Hd & Hj & Hdf).
  specialize (H scored_session j df Hd).
  apply Permutation_length in H. rewrite Hj, Hdf in H. discriminate H.
Qed.

(** ** The views on a store that holds a record *)

Lemma revenue_view_scored (st : session_state) (c : customer) (r : Q) :
  holds st c ->
  st !! "churn_risk_score" = Some (VNum r) ->
  revenue_view st
  = (rev ← revenue_exposure r (total_spend c) (contract_length c); mret (Some rev)).
Proof.
  intros H Hscore. apply holds_lookups in H.
  destruct H as (_ & _ & _ & _ & _ & Hcl & Hts & _).
  unfold revenue_view. rewrite (when_scored_num st _ r Hscore).
  now rewrite (numeric_input_num st _ _ Hts), (numeric_input_num st _ _ Hcl).
Qed.

(** ** Sample runs *)

(** With a predictor loaded the run does write the Prediction Result. *)
Example evaluate_sample_model :
  exists st' : session_state,
    evaluate (Some sample_model) None sample_clock fresh_session = Ok (st', []) /\
    st' !! "churn_risk_score" = Some (VNum (normalized_risk 0.55)) /\
    st' !! "timestamp" = Some (VStr "2026-01-01 00:00:00 UTC") /\
    st' !! "compute_latency" = Some (VNum 1.234) /\
    st' !! "input_Age" = fresh_session !! "input_Age".
Proof.
  eexists. split; [reflexivity |]. repeat split; vm_compute; reflexivity.
Qed.

(** Before the first run every view shows its placeholder. *)
Example views_before_first_run :
  result_view fresh_session = Ok None /\
  revenue_view fresh_session = Ok None /\
  dossier fresh_session = Ok None /\
  fst (cohort_view lcg_seed lcg_normal1 fresh_session 0%Z) = Ok None.
Proof. repeat split; vm_compute; reflexivity. Qed.

(** A contract length of -1, which no slider position gives, would make the
    revenue simulation divide by zero. *)
Example revenue_exposure_zero_division :
  revenue_exposure 25 1200 (-1) = Raise ZeroDivisionError.
Proof. reflexivity. Qed.

(** The fresh session holds the default record. *)
Example fresh_session_holds_defaults : holds fresh_session default_customer.
Proof. unfold holds. repeat constructor. Qed.

(** * Part II, continued: the rest of the script *)

Lemma is_ok_true {A} (r : result A) : is_ok r = true -> exists a : A, r = Ok a.
Proof. destruct r; [eauto | discriminate]. Qed.

(** ** Loading the artifacts *)

Section LoaderProperties.

Context {file : Type}.
Variable open_rb : string -> result file.
Variable pickle_load_model : file -> result Model.
Variable pickle_load_encoder : file -> result Encoder.

Lemma try_load_artifact {A} (opened : result file) (load : file -> result A) :
  exists o : option A,
    try_except (f ← opened; a ← load f; mret (Some a)) (Ok None) = Ok o /\
    (forall a : A, o = Some a <-> exists f : file, opened = Ok f /\ load f = Ok a).
Proof.
  destruct opened as [f | e]; cbn.
  - destruct (load f) as [a | e] eqn:E; cbn.
    + exists (Some a). split; [reflexivity |]. intros a'. split.
      * intros [= <-]. eauto.
      * intros (f' & [= <-] & H). congruence.
    + exists None. split; [reflexivity |]. intros a'. split; [discriminate |].
      intros (f' & [= <-] & H). congruence.
  - exists None. split; [reflexivity |]. intros a'. split; [discriminate |].
    intros (f' & H & _). discriminate H.
Qed.

(** X1: loading never raises; the predictor is loaded exactly when
    [model.pkl] opens and unpickles, the encoder exactly when [encoder.pkl]
    does, each whatever happens to the other file; and when the predictor
    is not loaded, every run with the loaded pair is refused and leaves the
    store as it was. *)
Theorem load_ml_infrastructure_robust :
  exists (model : option Model) (encoder : option Encoder),
    load_ml_infrastructure open_rb pickle_load_model pickle_load_encoder
    = Ok (model, encoder) /\
    (forall m : Model,
        model = Some m <->
        exists f : file, open_rb "model.pkl" = Ok f /\ pickle_load_model f = Ok m) /\
    (forall e : Encoder,
        encoder = Some e <->
        exists f : file, open_rb "encoder.pkl" = Ok f /\ pickle_load_encoder f = Ok e) /\
    ((forall f : file, open_rb "model.pkl" = Ok f ->
                       exists e : exn, pickle_load_model f = Raise e) ->
     forall (clk : clock) (st : session_state),
       evaluate model encoder clk st = Ok (st, [st_error SYSTEM_HALT])).
Proof.
  destruct (try_load_artifact (open_rb "model.pkl") pickle_load_model)
    as (model & Hm & Hmodel).
  destruct (try_load_artifact (open_rb "encoder.pkl") pickle_load_encoder)
    as (encoder & He & Hencoder).
  exists model, encoder. unfold load_ml_infrastructure.
  rewrite Hm. cbn. rewrite He. cbn.
  split; [reflexivity |]. split; [exact Hmodel |]. split; [exact Hencoder |].
  intros Hbad clk st. destruct model as [m |]; [| reflexivity].
  destruct (proj1 (Hmodel m) eq_refl) as (f & Hf & Hp).
  destruct (Hbad f Hf) as [e He']. congruence.
Qed.

End LoaderProperties.

Lemma load_ml_infrastructure_robust_witness :
  evaluate None (Some constant_encoder) sample_clock fresh_session
  = Ok (fresh_session, [st_error SYSTEM_HALT]).
Proof.
  destruct (load_ml_infrastructure_robust
              (fun path : string =>
                 if String.eqb path "encoder.pkl" then Ok tt
                 else Raise (ValueError "No such file"))
              (fun _ : unit => Ok sample_model)
              (fun _ : unit => Ok constant_encoder))
    as (model & encoder & Hload & Hm & He & Hrefused).
  vm_compute in Hload. injection Hload as <- <-.
  apply Hrefused. intros f Hf. vm_compute in Hf. discriminate Hf.
Defined.

(** ** Session initialization *)

Lemma init_key_lookup_keeps (key k : string) (v w : value) (st : session_state) :
  st !! k = Some w -> init_key key v st !! k = Some w.
Proof.
  intros H. unfold init_key. destruct (st !! key) eqn:E; [exact H |].
  rewrite lookup_insert_ne; [exact H | congruence].
Qed.

Lemma fold_init_feature_lookup_keeps (features : list string) (k : string) (w : value) :
  forall st : session_state,
    st !! k = Some w -> fold_left init_feature features st !! k = Some w.
Proof.
  induction features as [| f rest IH]; intros st H; [exact H |].
  cbn. apply IH. unfold init_feature. now apply init_key_lookup_keeps.
Qed.

(** X2: the initialization creates every key of the store and never
    overwrites one: whatever a key held before, it still holds. *)
Theorem initialize_creates_and_keeps (uuid8 : string) (st : session_state) :
  Forall (fun key => is_Some (initialize uuid8 st !! key)) store_keys /\
  (forall (k : string) (w : value),
      st !! k = Some w -> initialize uuid8 st !! k = Some w).
Proof.
  split; [apply initialize_initialized |].
  intros k w H. unfold initialize.
  do 3 apply init_key_lookup_keeps.
  now apply fold_init_feature_lookup_keeps, init_key_lookup_keeps.
Qed.

Lemma initialize_creates_and_keeps_witness :
  initialize "FFFFFFFF" scored_session !! "churn_risk_score" = Some (VNum 55) /\
  initialize "FFFFFFFF" scored_session !! "session_id" = Some (VStr "CRM-IDX-1A2B3C4D").
Proof.
  split; apply (proj2 (initialize_creates_and_keeps "FFFFFFFF" scored_session));
    vm_compute; reflexivity.
Defined.

Lemma init_key_id (key : string) (v : value) (st : session_state) :
  is_Some (st !! key) -> init_key key v st = st.
Proof. intros [w H]. unfold init_key. now rewrite H. Qed.

(** X3: on a store that already has its keys, the initialization changes
    nothing, whatever identifier the new run of the script draws: a rerun
    keeps the session id, the inputs and the last result. *)
Theorem initialize_rerun (uuid8 : string) (st : session_state) :
  initialized st -> initialize uuid8 st = st.
Proof.
  unfold initialized, store_keys, FEATURE_VECTORS. cbn [map app].
  rewrite !Forall_cons.
  intros (Hid & H1 & H2 & H3 & H4 & H5 & H6 & H7 & H8 & Hs & Hts & Hl & _).
  unfold initialize, FEATURE_VECTORS.
  rewrite (init_key_id "session_id" _ st Hid).
  cbn [fold_left]. unfold init_feature.
  rewrite (init_key_id _ _ st H1), (init_key_id _ _ st H2),
    (init_key_id _ _ st H3), (init_key_id _ _ st H4), (init_key_id _ _ st H5),
    (init_key_id _ _ st H6), (init_key_id _ _ st H7), (init_key_id _ _ st H8),
    (init_key_id _ _ st Hs), (init_key_id _ _ st Hts).
  now apply init_key_id.
Qed.

Lemma initialize_rerun_witness :
  initialize "FFFFFFFF" (initialize "1A2B3C4D" ∅) = initialize "1A2B3C4D" ∅.
Proof.
  apply (initialize_rerun "FFFFFFFF" (initialize "1A2B3C4D" ∅)).
  unfold initialized. repeat constructor; vm_compute; eexists; reflexivity.
Defined.

(** ** The input blocks *)

Lemma value_is_true (v : value) (s : string) : value_is v s = true <-> v = VStr s.
Proof.
  destruct v as [| t | q]; cbn; try (split; [discriminate | intros [=]]).
  rewrite String.eqb_eq. split; [now intros -> | now intros [= ->]].
Qed.

Lemma list_index_found (v : value) (options : list string) :
  py_in v options = true ->
  exists i : nat,
    list_index v options = Ok i /\
    (exists s : string, options !! i = Some s /\ v = VStr s) /\
    (forall (j : nat) (s : string),
        (j < i)%nat -> options !! j = Some s -> v <> VStr s).
Proof.
  unfold py_in. induction options as [| s rest IH]; cbn; [discriminate |].
  destruct (value_is v s) eqn:E; cbn.
  - intros _. exists O. split; [reflexivity |]. split.
    + exists s. split; [reflexivity | now apply value_is_true].
    + intros j t Hj. lia.
  - intros H. destruct (IH H) as (i & Hi & (t & Ht & Hv) & Hfirst).
    exists (S i). rewrite Hi. split; [reflexivity |]. split.
    + exists t. split; [exact Ht | exact Hv].
    + intros [| j] u Hj Hu.
      * cbn in Hu. injection Hu as <-. intros Hv'.
        apply value_is_true in Hv'. congruence.
      * cbn in Hu. apply (Hfirst j u); [lia | exact Hu].
Qed.

(** X4: the index handed to a selectbox never raises and always points
    into the options: at the first option equal to the stored value when
    there is one, at the first option otherwise (a value that is no option,
    [None] or a number). *)
Theorem selectbox_index_valid (options : list string) (current_val : value) :
  exists i : nat,
    selectbox_index options current_val = Ok i /\
    (py_in current_val options = true ->
     (exists s : string, options !! i = Some s /\ current_val = VStr s) /\
     (forall (j : nat) (s : string),
         (j < i)%nat -> options !! j = Some s -> current_val <> VStr s)) /\
    (py_in current_val options = false -> i = O) /\
    (options <> [] -> (i < length options)%nat).
Proof.
  unfold selectbox_index. destruct (py_in current_val options) eqn:E.
  - destruct (list_index_found current_val options E) as (i & Hi & Hat & Hfirst).
    exists i. split; [exact Hi |]. split; [intros _; split; assumption |].
    split; [discriminate |]. intros _.
    destruct Hat as (s & Hs & _). now apply lookup_lt_Some in Hs.
  - exists O. split; [reflexivity |]. split; [discriminate |].
    split; [reflexivity |]. intros Hne.
    destruct options; [contradiction | cbn; lia].
Qed.

Lemma selectbox_index_valid_witness :
  selectbox_index ["Basic"; "Standard"; "Premium"] (VStr "Premium") = Ok 2%nat /\
  selectbox_index ["Basic"; "Standard"; "Premium"] (VStr "Gold") = Ok O.
Proof.
  split.
  - destruct (selectbox_index_valid ["Basic"; "Standard"; "Premium"] (VStr "Premium"))
      as (i & Hi & Hin & _ & _).
    rewrite Hi. f_equal.
    destruct (Hin eq_refl) as ((s & Hs & [= <-]) & _).
    destruct i as [| [| [| i]]]; cbn in Hs; try discriminate; reflexivity.
  - destruct (selectbox_index_valid ["Basic"; "Standard"; "Premium"] (VStr "Gold"))
      as (i & Hi & _ & Hout & _).
    rewrite Hi. f_equal. now apply Hout.
Defined.

Lemma delta_sign (x b : Q) :
  0 < b ->
  (0 < (x - b) / b * 100 <-> b < x) /\ ((x - b) / b * 100 == 0 <-> x == b).
Proof.
  intros Hb. pose proof (Qinv_lt_0_compat b Hb) as Hi.
  assert (Hone : b * / b == 1) by (apply Qmult_inv_r; lra).
  unfold Qdiv. set (i := / b) in *.
  repeat split; intros H; nra.
Qed.

Lemma delta_pct_with_baseline (st : session_state) (feat_name : string) (x b : Q) :
  GLOBAL_BASELINES !! feat_name = Some b ->
  0 < b ->
  st !! state_key feat_name = Some (VNum x) ->
  delta_pct st feat_name = Ok (Some ((x - b) / b * 100)).
Proof.
  intros Hb Hpos Hx. unfold delta_pct, getitem, dict_getitem.
  rewrite Hx, Hb. cbn.
  apply Qgt_bool_true in Hpos. rewrite Hpos.
  apply Qgt_bool_true in Hpos.
  rewrite py_div_ok by lra. reflexivity.
Qed.

Lemma numeric_blocks_baseline (feat_name : string) :
  In feat_name (map fst numeric_blocks) ->
  exists b : Q, GLOBAL_BASELINES !! feat_name = Some b /\ 0 < b.
Proof.
  cbn. intros [<- | [<- | [<- | [<- | [<- | [<- | []]]]]]];
    eexists; (split; [vm_compute; reflexivity | reflexivity]).
Qed.

(** X5: for each of the six numeric blocks and every number the input
    holds, the delta against the baseline is computed without error (the
    baseline exists and is positive, so the division is defined): it is
    [(x - baseline) / baseline * 100], positive exactly when the input is
    above its baseline and zero exactly when it equals it. *)
Theorem delta_pct_numeric_blocks (st : session_state) (feat_name : string) (x : Q) :
  In feat_name (map fst numeric_blocks) ->
  st !! state_key feat_name = Some (VNum x) ->
  exists baseline d : Q,
    GLOBAL_BASELINES !! feat_name = Some baseline /\
    0 < baseline /\
    delta_pct st feat_name = Ok (Some d) /\
    d == (x - baseline) / baseline * 100 /\
    (0 < d <-> baseline < x) /\
    (d == 0 <-> x == baseline).
Proof.
  intros Hin Hx.
  destruct (numeric_blocks_baseline feat_name Hin) as (b & Hb & Hpos).
  exists b, ((x - b) / b * 100).
  split; [exact Hb |]. split; [exact Hpos |].
  split; [now apply delta_pct_with_baseline |].
  split; [reflexivity |]. now apply delta_sign.
Qed.

Lemma delta_pct_numeric_blocks_witness :
  exists baseline d : Q,
    GLOBAL_BASELINES !! "Age" = Some baseline /\
    0 < baseline /\
    delta_pct fresh_session "Age" = Ok (Some d) /\
    d == (35 - baseline) / baseline * 100 /\
    (0 < d <-> baseline < 35) /\
    (d == 0 <-> 35 == baseline).
Proof.
  apply (delta_pct_numeric_blocks fresh_session "Age" 35).
  - simpl. auto.
  - vm_compute. reflexivity.
Defined.

(** ** Thresholds across the views *)

Lemma gauge_color_cases (r : Q) :
  (50 <= r /\ gauge_color r = "#f43f5e") \/
  (25 <= r < 50 /\ gauge_color r = "#f59e0b") \/
  (r < 25 /\ gauge_color r = "#10b981").
Proof.
  unfold gauge_color.
  case_ge r 50; [left; split; [lra | reflexivity] | right].
  case_ge r 25; [left | right]; (split; [lra | reflexivity]).
Qed.

Lemma sidebar_status_scored (st : session_state) (r : Q) (latency : value) :
  st !! "churn_risk_score" = Some (VNum r) ->
  st !! "compute_latency" = Some latency ->
  sidebar_status st
  = Ok (Some (if Qgt_bool r 50 then "var(--crimson-neon)" else "var(--emerald-neon)",
              if Qgt_bool r 50 then "CRITICAL RISK DETECTED" else "RETENTION SECURE",
              latency)).
Proof.
  intros Hr Hl. unfold sidebar_status.
  rewrite (when_scored_num st _ r Hr). unfold getitem. now rewrite Hl.
Qed.

(** The thresholds of the views when they read one and the same store. *)
Lemma thresholds_on_store (st : session_state) (r : Q) (latency : value) :
  st !! "churn_risk_score" = Some (VNum r) ->
  st !! "compute_latency" = Some latency ->
  exists status_color status_text : string,
    sidebar_status st = Ok (Some (status_color, status_text, latency)) /\
    (status_text = "CRITICAL RISK DETECTED" <-> 50 < r) /\
    (status_text = "RETENTION SECURE" <-> r <= 50) /\
    (gauge_color r = "#f43f5e" <-> 50 <= r) /\
    (text_col r = "var(--crimson-neon)" <-> 50 <= r) /\
    (forall (sess_id ts : value) (telemetry : list (string * value)),
        json_get ["churn_prediction"; "status"] (json_payload sess_id ts r telemetry)
        = Some (JString "High Risk") <-> 50 <= r) /\
    (status_text = "RETENTION SECURE" /\ text_col r = "var(--crimson-neon)"
     <-> r == 50).
Proof.
  intros Hr Hl. eexists _, _.
  split; [apply (sidebar_status_scored st r latency Hr Hl) |].
  assert (Htext : text_col r = "var(--crimson-neon)" <-> 50 <= r).
  { unfold text_col. case_ge r 50; split; intros; try discriminate; try reflexivity; lra. }
  split; [| split; [| split; [| split; [exact Htext | split]]]].
  - case_gt r 50; split; intros; try discriminate; try reflexivity; lra.
  - case_gt r 50; split; intros; try discriminate; try reflexivity; lra.
  - destruct (gauge_color_cases r) as [[H ->] | [[H ->] | [H ->]]];
      split; intros; try discriminate; try reflexivity; lra.
  - intros sess_id ts telemetry. rewrite json_payload_status.
    case_ge r 50; split; intros; try discriminate; try reflexivity; lra.
  - rewrite Htext.
    case_gt r 50; split;
      try (intros [? ?]); try intros ?; try split; try discriminate;
      try reflexivity; lra.
Qed.

(** X7: the title of the result view and the colour of the gauge use
    different bands: a "high" title always comes with a red gauge and a
    green gauge always with the "secure" title, but the title is "moderate"
    under a red gauge exactly for scores in [50, 60] and "secure" under an
    amber gauge exactly for scores in [25, 30]. *)
Theorem title_and_gauge_bands (r : Q) :
  (title_text (primary_risk_output r) = band_title high ->
   gauge_color r = "#f43f5e") /\
  (gauge_color r = "#10b981" ->
   title_text (primary_risk_output r) = band_title secure) /\
  (title_text (primary_risk_output r) = band_title moderate /\
   gauge_color r = "#f43f5e" <-> 50 <= r <= 60) /\
  (title_text (primary_risk_output r) = band_title secure /\
   gauge_color r = "#f59e0b" <-> 25 <= r <= 30).
Proof.
  destruct (primary_risk_output_cases r) as [[H ->] | [[H ->] | [H ->]]];
    destruct (gauge_color_cases r) as [[G ->] | [[G ->] | [G ->]]];
    repeat split; intros;
    repeat match goal with
           | H : _ /\ _ |- _ => destruct H
           end;
    try discriminate; try reflexivity; lra.
Qed.

Lemma title_and_gauge_bands_witness :
  gauge_color 61 = "#f43f5e" /\
  title_text (primary_risk_output 10) = band_title secure.
Proof.
  split.
  - apply (proj1 (title_and_gauge_bands 61)). reflexivity.
  - apply (proj1 (proj2 (title_and_gauge_bands 10))). reflexivity.
Defined.

(** ** Risk topology *)

Lemma bound_ratio_num (st : session_state) (feat_name : string) (x bound : Q) :
  st !! state_key feat_name = Some (VNum x) ->
  max_bounds !! feat_name = Some bound ->
  ~ bound == 0 ->
  bound_ratio st feat_name = Ok (x / bound).
Proof.
  intros Hx Hb Hnz. unfold bound_ratio, dict_getitem.
  rewrite (numeric_input_num st _ _ Hx), Hb. cbn. now apply py_div_ok.
Qed.

Lemma radar_vals_of_record (st : session_state) (c : customer) :
  holds st c ->
  radar_vals st
  = Ok [ py_min (age c / 80) 1; py_min (support_calls c / 15) 1;
         py_min (payment_delay c / 30) 1; 1 - py_min (contract_length c / 24) 1;
         1 - py_min (total_spend c / 10000) 1; py_min (last_interaction c / 90) 1 ].
Proof.
  intros H. apply holds_lookups in H.
  destruct H as (Ha & _ & Hsc & Hpd & _ & Hcl & Hts & Hli).
  unfold radar_vals.
  rewrite (bound_ratio_num st "Age" _ 80 Ha) by (reflexivity || discriminate).
  rewrite (bound_ratio_num st "Support Calls" _ 15 Hsc) by (reflexivity || discriminate).
  rewrite (bound_ratio_num st "Payment Delay" _ 30 Hpd) by (reflexivity || discriminate).
  rewrite (bound_ratio_num st "Contract Length" _ 24 Hcl) by (reflexivity || discriminate).
  rewrite (bound_ratio_num st "Total Spend" _ 10000 Hts) by (reflexivity || discriminate).
  rewrite (bound_ratio_num st "Last Interaction" _ 90 Hli) by (reflexivity || discriminate).
  reflexivity.
Qed.

Lemma capped_ratio_bounds (x bound : Q) :
  0 < bound -> 0 <= x -> 0 <= py_min (x / bound) 1 <= 1.
Proof.
  intros Hb Hx. pose proof (Qinv_lt_0_compat bound Hb) as Hi.
  assert (0 <= x / bound) by (unfold Qdiv; nra).
  destruct (py_min_spec (x / bound) 1) as [[? ->] | [? ->]]; lra.
Qed.

Lemma capped_ratio_le_1 (x bound : Q) : py_min (x / bound) 1 <= 1.
Proof. destruct (py_min_spec (x / bound) 1) as [[? ->] | [? ->]]; lra. Qed.

Lemma capped_ratio_mono (x y bound : Q) :
  0 < bound -> x <= y -> py_min (x / bound) 1 <= py_min (y / bound) 1.
Proof.
  intros Hb Hxy. pose proof (Qinv_lt_0_compat bound Hb) as Hi.
  assert (x / bound <= y / bound) by (unfold Qdiv; nra).
  destruct (py_min_spec (x / bound) 1) as [[? ->] | [? ->]];
    destruct (py_min_spec (y / bound) 1) as [[? ->] | [? ->]]; lra.
Qed.

(** X8: for a store that holds a record with no negative field and has a
    score, the radar trace is drawn without error: seven values in [0, 1],
    the seventh repeating the first so that the polygon closes, against
    seven category labels closed the same way, as many as the ideal profile
    has. *)
Theorem risk_topology_unit_polygon (st : session_state) (c : customer) (r : Q) :
  holds st c ->
  nonnegative c ->
  st !! "churn_risk_score" = Some (VNum r) ->
  exists (vals : list Q) (categories : list string),
    risk_topology st = Ok (Some (vals, categories)) /\
    length vals = 7%nat /\
    length categories = 7%nat /\
    length ideal_profile = 7%nat /\
    Forall (fun v => 0 <= v <= 1) vals /\
    vals !! 6%nat = vals !! 0%nat /\
    categories !! 6%nat = categories !! 0%nat.
Proof.
  intros H (Ha & Hsc & Hpd & Hcl & Hts & Hli) Hr.
  unfold risk_topology. rewrite (when_scored_num st _ r Hr).
  rewrite (radar_vals_of_record st c H). cbn.
  eexists _, _. split; [reflexivity |].
  repeat split; try reflexivity.
  pose proof (capped_ratio_bounds (age c) 80).
  pose proof (capped_ratio_bounds (support_calls c) 15).
  pose proof (capped_ratio_bounds (payment_delay c) 30).
  pose proof (capped_ratio_bounds (contract_length c) 24).
  pose proof (capped_ratio_bounds (total_spend c) 10000).
  pose proof (capped_ratio_bounds (last_interaction c) 90).
  repeat (apply Forall_cons; split); try apply Forall_nil_2; lra.
Qed.

Lemma risk_topology_unit_polygon_witness :
  exists (vals : list Q) (categories : list string),
    risk_topology scored_session = Ok (Some (vals, categories)) /\
    length vals = 7%nat /\
    length categories = 7%nat /\
    length ideal_profile = 7%nat /\
    Forall (fun v => 0 <= v <= 1) vals /\
    vals !! 6%nat = vals !! 0%nat /\
    categories !! 6%nat = categories !! 0%nat.
Proof.
  apply (risk_topology_unit_polygon scored_session default_customer 55).
  - unfold holds. repeat constructor.
  - unfold nonnegative, Qle. simpl. lia.
  - vm_compute. reflexivity.
Defined.

(** X9: the radar values follow the inputs: when one record is field by
    field at most another, its values on the four direct axes (age, support
    calls, payment delay, last interaction) are no larger and its values on
    the two inverted axes (contract length, total spend) are no smaller;
    no direct value exceeds 1 and no inverted value is below 0, whatever the
    inputs. *)
Theorem radar_vals_monotone (st1 st2 : session_state) (c1 c2 : customer) :
  holds st1 c1 ->
  holds st2 c2 ->
  below c1 c2 ->
  exists a1 a2 a3 a4 a5 a6 b1 b2 b3 b4 b5 b6 : Q,
    radar_vals st1 = Ok [a1; a2; a3; a4; a5; a6] /\
    radar_vals st2 = Ok [b1; b2; b3; b4; b5; b6] /\
    a1 <= b1 /\ a2 <= b2 /\ a3 <= b3 /\ b4 <= a4 /\ b5 <= a5 /\ a6 <= b6 /\
    b1 <= 1 /\ b2 <= 1 /\ b3 <= 1 /\ 0 <= b4 /\ 0 <= b5 /\ b6 <= 1.
Proof.
  intros H1 H2 (Ha & Hsc & Hpd & Hcl & Hts & Hli).
  rewrite (radar_vals_of_record st1 c1 H1), (radar_vals_of_record st2 c2 H2).
  do 12 eexists. split; [reflexivity |]. split; [reflexivity |].
  pose proof (capped_ratio_mono _ _ 80 eq_refl Ha).
  pose proof (capped_ratio_mono _ _ 15 eq_refl Hsc).
  pose proof (capped_ratio_mono _ _ 30 eq_refl Hpd).
  pose proof (capped_ratio_mono _ _ 24 eq_refl Hcl).
  pose proof (capped_ratio_mono _ _ 10000 eq_refl Hts).
  pose proof (capped_ratio_mono _ _ 90 eq_refl Hli).
  pose proof (capped_ratio_le_1 (age c2) 80).
  pose proof (capped_ratio_le_1 (support_calls c2) 15).
  pose proof (capped_ratio_le_1 (payment_delay c2) 30).
  pose proof (capped_ratio_le_1 (contract_length c2) 24).
  pose proof (capped_ratio_le_1 (total_spend c2) 10000).
  pose proof (capped_ratio_le_1 (last_interaction c2) 90).
  repeat split; lra.
Qed.

Lemma radar_vals_monotone_witness :
  exists a1 a2 a3 a4 a5 a6 b1 b2 b3 b4 b5 b6 : Q,
    radar_vals fresh_session = Ok [a1; a2; a3; a4; a5; a6] /\
    radar_vals (write_input "Contract Length" (VNum 30) fresh_session)
    = Ok [b1; b2; b3; b4; b5; b6] /\
    a1 <= b1 /\ a2 <= b2 /\ a3 <= b3 /\ b4 <= a4 /\ b5 <= a5 /\ a6 <= b6 /\
    b1 <= 1 /\ b2 <= 1 /\ b3 <= 1 /\ 0 <= b4 /\ 0 <= b5 /\ b6 <= 1.
Proof.
  apply (radar_vals_monotone fresh_session
           (write_input "Contract Length" (VNum 30) fresh_session)
           default_customer
           {| age := 35; gender := "Female"; support_calls := 2;
              payment_delay := 5; subscription_type := "Standard";
              contract_length := 30; total_spend := 1500;
              last_interaction := 14 |}).
  - unfold holds. repeat constructor.
  - unfold holds. repeat constructor.
  - unfold below, Qle. simpl. lia.
Defined.

(** ** Stores the interactions can reach *)

Lemma state_key_inj (t f : string) : state_key t = state_key f -> t = f.
Proof. unfold state_key. cbn. now intros [=]. Qed.

Lemma widget_accepts_feature (feat_name : string) (v : value) :
  widget_accepts feat_name v = true -> In feat_name FEATURE_VECTORS.
Proof.
  unfold widget_accepts, numeric_blocks, categorical_blocks, FEATURE_VECTORS.
  cbn -[String.eqb].
  repeat match goal with
         | |- context [String.eqb ?a feat_name] =>
             destruct (String.eqb_spec a feat_name) as [<- | ?];
             [intros _; tauto | cbn -[String.eqb]]
         end.
  discriminate.
Qed.

Lemma widget_accepts_slider (feat_name : string) (v : value) (lo hi step : Q) :
  assoc feat_name numeric_blocks = Some (lo, hi, step) ->
  widget_accepts feat_name v = true ->
  exists q : Q, v = VNum q /\ lo <= q <= hi.
Proof.
  intros Hb. unfold widget_accepts. rewrite Hb.
  destruct v as [| s | q];
    try (destruct (assoc feat_name categorical_blocks); discriminate).
  intros H. apply andb_true_iff in H as [H1 H2].
  apply Qle_bool_iff in H1, H2. eauto.
Qed.

Lemma widget_accepts_select (feat_name : string) (v : value) (options : list string) :
  assoc feat_name numeric_blocks = None ->
  assoc feat_name categorical_blocks = Some options ->
  widget_accepts feat_name v = true ->
  exists s : string, v = VStr s /\ In s options.
Proof.
  intros Hn Hc. unfold widget_accepts. rewrite Hn, Hc.
  destruct v as [| s | q]; try discriminate.
  intros H. exists s. split; [reflexivity |].
  apply existsb_exists in H as (o & Ho & E).
  apply String.eqb_eq in E. now subst.
Qed.

Lemma valid_inputs_record (st : session_state) :
  valid_inputs st -> exists c : customer, holds st c /\ valid_customer c.
Proof.
  unfold valid_inputs, FEATURE_VECTORS. rewrite !Forall_cons.
  intros ((v1 & E1 & A1) & (v2 & E2 & A2) & (v3 & E3 & A3) & (v4 & E4 & A4) &
          (v5 & E5 & A5) & (v6 & E6 & A6) & (v7 & E7 & A7) & (v8 & E8 & A8) & _).
  destruct (widget_accepts_slider "Age" v1 _ _ _ eq_refl A1) as (q1 & -> & _).
  destruct (widget_accepts_select "Gender" v2 _ eq_refl eq_refl A2) as (s2 & -> & _).
  destruct (widget_accepts_slider "Support Calls" v3 _ _ _ eq_refl A3) as (q3 & -> & _).
  destruct (widget_accepts_slider "Payment Delay" v4 _ _ _ eq_refl A4) as (q4 & -> & _).
  destruct (widget_accepts_select "Subscription Type" v5 _ eq_refl eq_refl A5) as (s5 & -> & _).
  destruct (widget_accepts_slider "Contract Length" v6 _ _ _ eq_refl A6) as (q6 & -> & _).
  destruct (widget_accepts_slider "Total Spend" v7 _ _ _ eq_refl A7) as (q7 & -> & _).
  destruct (widget_accepts_slider "Last Interaction" v8 _ _ _ eq_refl A8) as (q8 & -> & _).
  exists {| age := q1; gender := s2; support_calls := q3; payment_delay := q4;
            subscription_type := s5; contract_length := q6; total_spend := q7;
            last_interaction := q8 |}.
  split; unfold holds, valid_customer, inputs_of; cbn [age gender support_calls
    payment_delay subscription_type contract_length total_spend last_interaction];
    repeat (apply Forall_cons; split); try apply Forall_nil_2; cbn [fst snd];
    assumption.
Qed.

Lemma valid_customer_ranges (c : customer) :
  valid_customer c ->
  nonnegative c /\ valid_contract_length (contract_length c) /\ valid_categoricals c.
Proof.
  unfold valid_customer, inputs_of. rewrite !Forall_cons. cbn [fst snd].
  intros (A1 & A2 & A3 & A4 & A5 & A6 & A7 & A8 & _).
  eapply widget_accepts_slider in A1 as (q1 & [= <-] & B1); [| reflexivity].
  eapply widget_accepts_select in A2 as (s2 & [= <-] & B2); [| reflexivity | reflexivity].
  eapply widget_accepts_slider in A3 as (q3 & [= <-] & B3); [| reflexivity].
  eapply widget_accepts_slider in A4 as (q4 & [= <-] & B4); [| reflexivity].
  eapply widget_accepts_select in A5 as (s5 & [= <-] & B5); [| reflexivity | reflexivity].
  eapply widget_accepts_slider in A6 as (q6 & [= <-] & B6); [| reflexivity].
  eapply widget_accepts_slider in A7 as (q7 & [= <-] & B7); [| reflexivity].
  eapply widget_accepts_slider in A8 as (q8 & [= <-] & B8); [| reflexivity].
  unfold nonnegative, valid_contract_length, valid_categoricals.
  repeat split; try assumption; lra.
Qed.

Lemma valid_inputs_write (st : session_state) (feat_name : string) (v : value) :
  valid_inputs st ->
  widget_accepts feat_name v = true ->
  valid_inputs (write_input feat_name v st).
Proof.
  unfold valid_inputs, write_input. intros H Hv.
  eapply Forall_impl; [exact H |]. cbv beta. intros t (w & Hw & Aw).
  destruct (decide (t = feat_name)) as [-> | N].
  - exists v. rewrite lookup_insert_eq. auto.
  - exists w. rewrite lookup_insert_ne; [auto |].
    intros E. apply state_key_inj in E. congruence.
Qed.

Lemma valid_inputs_insert_result (st : session_state) (key : string) (v : value) :
  (forall t : string, state_key t <> key) ->
  valid_inputs st -> valid_inputs (<[key := v]> st).
Proof.
  unfold valid_inputs. intros Hk H.
  eapply Forall_impl; [exact H |]. cbv beta. intros t (w & Hw & Aw).
  exists w. rewrite lookup_insert_ne; [auto |]. intros E. now apply (Hk t).
Qed.

Lemma prediction_consistent_write (st : session_state) (feat_name : string) (v : value) :
  prediction_consistent st -> prediction_consistent (write_input feat_name v st).
Proof.
  destruct (state_key_not_result feat_name) as (N1 & N2 & _).
  unfold prediction_consistent, write_input.
  rewrite !lookup_insert_ne by assumption. auto.
Qed.

Lemma initialize_well_formed (uuid8 : string) : well_formed (initialize uuid8 ∅).
Proof.
  split; [apply initialize_initialized |]. split.
  - unfold valid_inputs.
    repeat (apply Forall_cons; split); try apply Forall_nil_2;
      eexists; (split; [vm_compute; reflexivity | reflexivity]).
  - left. split; vm_compute; reflexivity.
Qed.

Lemma payload_well_formed (encoder : option Encoder) (st : session_state) :
  valid_inputs st -> exists row : list Q, payload encoder st = Ok [row].
Proof.
  intros H. destruct (valid_inputs_record st H) as (c & Hc & _).
  destruct (encode_categoricals_total encoder (VStr (gender c))
              (VStr (subscription_type c))) as [[gv sv] Henc].
  eexists. apply (payload_of_record encoder st c gv sv Hc Henc).
Qed.

Lemma evaluate_well_formed (model : option Model) (encoder : option Encoder)
    (clk : clock) (st st' : session_state) (events : list ui_event) :
  well_formed st ->
  evaluate model encoder clk st = Ok (st', events) ->
  well_formed st'.
Proof.
  intros (Hi & Hv & Hp). unfold evaluate.
  destruct model as [m |]; [| intros [= <- _]; repeat split; assumption].
  destruct (payload encoder st) as [rows | e]; [| discriminate]. cbn.
  destruct (predict m rows) as [preds | e]; [| discriminate]. cbn.
  destruct (index0 preds) as [raw_pred | e]; [| discriminate]. cbn.
  intros [= <- _]. split; [| split].
  - now do 3 apply initialized_insert.
  - do 3 (apply valid_inputs_insert_result;
          [intros t; apply (state_key_not_result t) |]).
    exact Hv.
  - right. exists (normalized_risk raw_pred), (now clk).
    split; [| split; [apply normalized_risk_bounds |]].
    + rewrite lookup_insert_ne by discriminate.
      rewrite lookup_insert_ne by discriminate.
      apply lookup_insert_eq.
    + rewrite lookup_insert_ne by discriminate. apply lookup_insert_eq.
Qed.

Lemma step_well_formed (model : option Model) (encoder : option Encoder)
    (st st' : session_state) (a : action) :
  well_formed st -> valid_action a ->
  step model encoder st a = Ok st' -> well_formed st'.
Proof.
  intros Hwf Ha. destruct a as [feat_name v | clk]; cbn.
  - intros [= <-]. destruct Hwf as (Hi & Hv & Hp). split; [| split].
    + now apply initialized_insert.
    + now apply valid_inputs_write.
    + now apply prediction_consistent_write.
  - destruct (evaluate model encoder clk st) as [[st1 events] | e] eqn:E;
      [| discriminate].
    cbn. intros [= <-]. eapply evaluate_well_formed; eassumption.
Qed.

Lemma run_well_formed (model : option Model) (encoder : option Encoder)
    (actions : list action) :
  forall st st' : session_state,
    well_formed st ->
    Forall valid_action actions ->
    run model encoder st actions = Ok st' ->
    well_formed st'.
Proof.
  induction actions as [| a rest IH]; intros st st' Hwf Hvalid; cbn.
  - now intros [= <-].
  - apply Forall_cons in Hvalid as [Ha Hrest].
    destruct (step model encoder st a) as [st1 | e] eqn:E; [| discriminate].
    cbn. apply IH; [| exact Hrest].
    eapply step_well_formed; eassumption.
Qed.


Lemma sample_actions_return :
  is_ok (run (Some sample_model) None (initialize "1A2B3C4D" ∅) sample_actions)
  = true.
Proof. vm_compute. reflexivity. Qed.


Lemma step_progress (model : option Model) (encoder : option Encoder)
    (st : session_state) (a : action) :
  (forall m : Model, model = Some m -> answers m) ->
  well_formed st ->
  exists st' : session_state, step model encoder st a = Ok st'.
Proof.
  intros Hans (_ & Hv & _). destruct a as [feat_name v | clk]; cbn.
  - eauto.
  - unfold evaluate. destruct model as [m |]; [| cbn; eauto].
    destruct (payload_well_formed encoder st Hv) as [row ->]. cbn.
    destruct (Hans m eq_refl row) as (p & ps & ->). cbn. eauto.
Qed.

(** X11: when the loaded predictor, if any, answers every row, no sequence
    of interactions the widgets allow can make a run raise: from a fresh
    session every such sequence returns a store. *)
Theorem run_never_raises (model : option Model) (encoder : option Encoder)
    (uuid8 : string) (actions : list action) :
  (forall m : Model, model = Some m -> answers m) ->
  Forall valid_action actions ->
  exists st' : session_state,
    run model encoder (initialize uuid8 ∅) actions = Ok st'.
Proof.
  intros Hans.
  generalize (initialize_well_formed uuid8).
  generalize (initialize uuid8 ∅).
  induction actions as [| a rest IH]; intros st Hwf Hvalid; cbn; [eauto |].
  apply Forall_cons in Hvalid as [Ha Hrest].
  destruct (step_progress model encoder st a Hans Hwf) as [st1 Hstep].
  rewrite Hstep. cbn. apply IH; [| exact Hrest].
  eapply step_well_formed; eassumption.
Qed.

Lemma run_never_raises_witness :
  exists st' : session_state,
    run (Some sample_model) (Some gender_only_encoder) (initialize "1A2B3C4D" ∅)
      sample_actions = Ok st'.
Proof.
  apply (run_never_raises (Some sample_model) (Some gender_only_encoder)
           "1A2B3C4D" sample_actions).
  - intros m [= <-] row. eexists _, _. reflexivity.
  - repeat constructor.
Defined.

(** ** The views on a well-formed store *)

Lemma initialized_latency (st : session_state) :
  initialized st -> is_Some (st !! "compute_latency").
Proof.
  unfold initialized, store_keys. cbn. rewrite !Forall_cons. tauto.
Qed.

Lemma cohort_view_unscored {rng_state : Type} (np_random_seed : Z -> rng_state)
    (np_random_normal1 : Q -> Q -> rng_state -> Q * rng_state)
    (st : session_state) (g : rng_state) :
  st !! "churn_risk_score" = Some VNone ->
  fst (cohort_view np_random_seed np_random_normal1 st g) = Ok None.
Proof. intros H. unfold cohort_view. now rewrite (when_scored_none st _ H). Qed.

Lemma risk_gauge_scored (st : session_state) (r : Q) :
  st !! "churn_risk_score" = Some (VNum r) ->
  risk_gauge st = Ok (Some (gauge_color r)).
Proof. intros H. unfold risk_gauge. now rewrite (when_scored_num st _ r H). Qed.

(** On a well-formed store no view raises, and all of them show their
    placeholder or all of them their content. *)
Lemma views_on_store (st : session_state) :
  well_formed st ->
  exists (box : option risk_box) (side : option (string * string * value))
         (topo : option (list Q * list string)) (gauge : option string)
         (rev : option revenue) (dos : option (json * frame)),
    result_view st = Ok box /\
    sidebar_status st = Ok side /\
    risk_topology st = Ok topo /\
    risk_gauge st = Ok gauge /\
    revenue_view st = Ok rev /\
    dossier st = Ok dos /\
    (forall (rng_state : Type) (np_random_seed : Z -> rng_state)
            (np_random_normal1 : Q -> Q -> rng_state -> Q * rng_state)
            (g : rng_state),
        exists cohort : option (list Q),
          fst (cohort_view np_random_seed np_random_normal1 st g) = Ok cohort /\
          (cohort = None <-> box = None)) /\
    (box = None <-> st !! "churn_risk_score" = Some VNone) /\
    (side = None <-> box = None) /\
    (topo = None <-> box = None) /\
    (gauge = None <-> box = None) /\
    (rev = None <-> box = None) /\
    (dos = None <-> box = None).
Proof.
  intros (Hi & Hv & [[Hs Ht] | (r & ts & Hs & Hr & Ht)]).
  - exists None, None, None, None, None, None.
    unfold result_view, sidebar_status, risk_topology, risk_gauge, revenue_view,
      dossier.
    rewrite !(when_scored_none st _ Hs).
    do 6 (split; [reflexivity |]).
    split.
    { intros rng_state seed normal1 g. exists None.
      split; [now apply cohort_view_unscored | tauto]. }
    repeat split; intros; try reflexivity; assumption.
  - destruct (valid_inputs_record st Hv) as (c & Hc & Hvc).
    destruct (valid_customer_ranges c Hvc) as (Hnn & [Hc1 Hc2] & _).
    destruct (initialized_latency st Hi) as [latency Hl].
    destruct (dossier_initialized st r Hi Hs) as (sess_id & ts' & _ & _ & Hd).
    eexists _, _, _, _, _, _.
    split; [apply (result_view_scored st r Hs) |].
    split; [apply (sidebar_status_scored st r latency Hs Hl) |].
    split.
    { unfold risk_topology. rewrite (when_scored_num st _ r Hs).
      rewrite (radar_vals_of_record st c Hc). cbn. reflexivity. }
    split; [apply (risk_gauge_scored st r Hs) |].
    split.
    { rewrite (revenue_view_scored st c r Hc Hs). unfold revenue_exposure.
      rewrite (py_div_ok r 100) by (intros H; discriminate H).
      rewrite (py_div_ok (total_spend c) (contract_length c + 1)) by lra.
      cbn. reflexivity. }
    split; [exact Hd |].
    split.
    { intros rng_state seed normal1 g. eexists.
      split; [apply (cohort_view_scored seed normal1 st g r Hs) |].
      split; discriminate. }
    rewrite Hs. repeat split; intros; discriminate.
Qed.

(** ** A run after a run *)

Lemma payload_ext (encoder : option Encoder) (st1 st2 : session_state) :
  (forall t : string, st1 !! state_key t = st2 !! state_key t) ->
  payload encoder st1 = payload encoder st2.
Proof.
  intros H. unfold payload, numeric_input, getitem.
  pose proof (H "Gender") as Hg. pose proof (H "Subscription Type") as Hs.
  change (state_key "Gender") with "input_Gender" in Hg.
  change (state_key "Subscription Type") with "input_Subscription Type" in Hs.
  rewrite Hg, Hs.
  rewrite (H "Age"), (H "Support Calls"), (H "Payment Delay"),
    (H "Contract Length"), (H "Total Spend"), (H "Last Interaction").
  reflexivity.
Qed.

Lemma result_overwritten (st : session_state) (s1 t1 l1 s2 t2 l2 : value) :
  <["compute_latency" := l2]>
    (<["timestamp" := t2]>
       (<["churn_risk_score" := s2]>
          (<["compute_latency" := l1]>
             (<["timestamp" := t1]> (<["churn_risk_score" := s1]> st)))))
  = <["compute_latency" := l2]>
      (<["timestamp" := t2]> (<["churn_risk_score" := s2]> st)).
Proof.
  apply map_eq. intros k. rewrite !lookup_insert.
  repeat case_decide; congruence.
Qed.

(** X13: a run overwrites the previous result and keeps no trace of it:
    running again on the store a run returned gives exactly what the second
    run alone would have given on the original store, the same store and
    the same messages. *)
Theorem evaluate_overwrites (model : option Model) (encoder : option Encoder)
    (clk1 clk2 : clock) (st st1 : session_state) (events1 : list ui_event) :
  evaluate model encoder clk1 st = Ok (st1, events1) ->
  evaluate model encoder clk2 st1 = evaluate model encoder clk2 st.
Proof.
  unfold evaluate. destruct model as [m |]; [| now intros [= <- _]].
  destruct (payload encoder st) as [rows | e] eqn:Ep; [| discriminate]. cbn.
  destruct (predict m rows) as [preds | e] eqn:Epred; [| discriminate]. cbn.
  destruct (index0 preds) as [raw_pred | e] eqn:Ei; [| discriminate]. cbn.
  intros [= <- _].
  rewrite (payload_ext encoder _ st), Ep; cbn.
  - rewrite Epred. cbn. rewrite Ei. cbn. now rewrite result_overwritten.
  - intros t. destruct (state_key_not_result t) as (N1 & N2 & N3).
    now rewrite !lookup_insert_ne by congruence.
Qed.

Lemma evaluate_overwrites_witness :
  exists st1 : session_state,
    evaluate (Some sample_model) None sample_clock fresh_session = Ok (st1, []) /\
    evaluate (Some sample_model) None
      {| start_time := 5; end_time := 7; now := "2026-02-02 10:00:00 UTC" |} st1
    = evaluate (Some sample_model) None
        {| start_time := 5; end_time := 7; now := "2026-02-02 10:00:00 UTC" |}
        fresh_session.
Proof.
  eexists. split; [reflexivity |].
  apply (evaluate_overwrites (Some sample_model) None sample_clock _
           fresh_session _ []).
  reflexivity.
Defined.

(** ** Revenue shares *)

Lemma revenue_exposure_ok (score s c : Q) :
  -1 < c ->
  revenue_exposure score s c
  = Ok {| mrr := s / (c + 1);
          annual_revenue := s / (c + 1) * 12;
          revenue_at_risk := s / (c + 1) * 12 * (score / 100);
          revenue_secured := s / (c + 1) * 12 * (1 - score / 100) |}.
Proof.
  intros Hc. unfold revenue_exposure.
  rewrite (py_div_ok score 100) by (intros H; discriminate H).
  rewrite (py_div_ok s (c + 1)) by lra. reflexivity.
Qed.

Lemma risk_fraction_bounds (score : Q) :
  0 <= score <= 100 -> 0 <= score / 100 <= 1.
Proof.
  intros H. assert (Hinv : / 100 == 1 # 100) by reflexivity.
  unfold Qdiv. rewrite Hinv. lra.
Qed.

Lemma risk_fraction_mono (score score' : Q) :
  score <= score' -> score / 100 <= score' / 100.
Proof.
  intros H. assert (Hinv : / 100 == 1 # 100) by reflexivity.
  unfold Qdiv. rewrite Hinv. lra.
Qed.



(** ** The stored latency *)

Lemma round_half_even_close (q : Q) :
  - (1 # 2) <= inject_Z (round_half_even q) - q <= 1 # 2.
Proof.
  pose proof (Qfloor_le q) as Hlo. pose proof (Qlt_floor q) as Hhi.
  rewrite inject_Z_plus in Hhi. change (inject_Z 1) with 1 in Hhi.
  unfold round_half_even.
  destruct (Qcompare_spec (q - inject_Z (Qfloor q)) (1 # 2)) as [E | E | E].
  - destruct (Z.even (Qfloor q)).
    + lra.
    + rewrite inject_Z_plus. change (inject_Z 1) with 1. lra.
  - lra.
  - rewrite inject_Z_plus. change (inject_Z 1) with 1. lra.
Qed.

Lemma round_half_even_nonneg (q : Q) : 0 <= q -> (0 <= round_half_even q)%Z.
Proof.
  intros H.
  assert (Hf : (0 <= Qfloor q)%Z).
  { change 0%Z with (Qfloor 0). now apply Qfloor_resp_le. }
  unfold round_half_even.
  destruct (Qcompare (q - inject_Z (Qfloor q)) (1 # 2));
    try destruct (Z.even (Qfloor q)); lia.
Qed.

(** X15: the latency a run stores is the elapsed time in whole
    milliseconds: it differs from the measured difference of the two clock
    readings by at most half a millisecond, and it is not negative when the
    clock has not gone backwards. *)
Theorem compute_latency_rounded (m : Model) (encoder : option Encoder) (clk : clock)
    (st st' : session_state) (events : list ui_event) :
  evaluate (Some m) encoder clk st = Ok (st', events) ->
  exists (latency : Q) (millis : Z),
    st' !! "compute_latency" = Some (VNum latency) /\
    latency == inject_Z millis / 1000 /\
    - (1 # 2000) <= latency - (end_time clk - start_time clk) <= 1 # 2000 /\
    (start_time clk <= end_time clk -> 0 <= latency).
Proof.
  unfold evaluate.
  destruct (payload encoder st) as [rows | e]; [| discriminate]. cbn.
  destruct (predict m rows) as [preds | e]; [| discriminate]. cbn.
  destruct (index0 preds) as [raw_pred | e]; [| discriminate]. cbn.
  intros [= <- _].
  set (elapsed := end_time clk - start_time clk).
  exists (py_round3 elapsed), (round_half_even (elapsed * 1000)).
  split; [apply lookup_insert_eq |]. split; [reflexivity |].
  pose proof (round_half_even_close (elapsed * 1000)) as Hclose.
  assert (Hinv : / 1000 == 1 # 1000) by reflexivity.
  unfold py_round3, Qdiv. rewrite Hinv.
  split; [lra |].
  intros Hmono.
  assert (0 <= elapsed * 1000) as Hnn by (unfold elapsed; lra).
  apply round_half_even_nonneg in Hnn.
  assert (0 <= inject_Z (round_half_even (elapsed * 1000))).
  { change 0 with (inject_Z 0). now rewrite <- Zle_Qle. }
  lra.
Qed.

Lemma compute_latency_rounded_witness :
  exists (latency : Q) (millis : Z),
    latency == inject_Z millis / 1000 /\
    - (1 # 2000) <= latency - (1001.2345 - 1000) <= 1 # 2000.
Proof.
  destruct (compute_latency_rounded sample_model None sample_clock fresh_session
              _ [] eq_refl) as (latency & millis & _ & Hm & Hclose & _).
  exists latency, millis. split; [exact Hm | exact Hclose].
Defined.

(** ** The fallback tables *)

Lemma dict_get_unknown (d : list (string * Z)) (v : value) :
  (forall s : string, v = VStr s -> ~ In s (map fst d)) ->
  dict_get (list_to_map d) v 0 = 0%Z.
Proof.
  intros H. destruct v as [| s | q]; try reflexivity. cbn.
  rewrite (not_elem_of_list_to_map_1 (M := gmap string)); [reflexivity |].
  rewrite list_elem_of_In. now apply H.
Qed.

(** X16: the fallback codes follow the alphabetical order of the labels,
    as a label encoder fitted on them would: of two labels of a table the
    alphabetically earlier one has the smaller code, so distinct labels get
    distinct codes; every other value (an unknown label, [None], a number)
    gets code 0, the code of "Female" and of "Basic". *)
Theorem fallback_tables_alphabetical :
  (forall a b : string,
      In a ["Female"; "Male"; "Other"] -> In b ["Female"; "Male"; "Other"] ->
      (String.ltb a b = true <->
       (dict_get manual_gender (VStr a) 0 < dict_get manual_gender (VStr b) 0)%Z)) /\
  (forall a b : string,
      In a ["Basic"; "Standard"; "Premium"] -> In b ["Basic"; "Standard"; "Premium"] ->
      (String.ltb a b = true <->
       (dict_get manual_sub (VStr a) 0 < dict_get manual_sub (VStr b) 0)%Z)) /\
  (forall v : value,
      (forall s : string, v = VStr s -> ~ In s ["Female"; "Male"; "Other"]) ->
      dict_get manual_gender v 0 = 0%Z) /\
  (forall v : value,
      (forall s : string, v = VStr s -> ~ In s ["Basic"; "Standard"; "Premium"]) ->
      dict_get manual_sub v 0 = 0%Z).
Proof.
  split; [| split; [| split]].
  - intros a b [<- | [<- | [<- | []]]] [<- | [<- | [<- | []]]];
      vm_compute; split; intros H; (reflexivity || discriminate H).
  - intros a b [<- | [<- | [<- | []]]] [<- | [<- | [<- | []]]];
      vm_compute; split; intros H; (reflexivity || discriminate H).
  - intros v H. apply dict_get_unknown. cbn. intros s Hs [E | [E | [E | []]]];
      apply (H s Hs); cbn; tauto.
  - intros v H. apply dict_get_unknown. cbn. intros s Hs [E | [E | [E | []]]];
      apply (H s Hs); cbn; tauto.
Qed.

Lemma fallback_tables_alphabetical_witness :
  (dict_get manual_sub (VStr "Premium") 0 < dict_get manual_sub (VStr "Standard") 0)%Z /\
  dict_get manual_gender (VStr "Unknown") 0 = 0%Z.
Proof.
  split.
  - apply (proj1 (proj2 fallback_tables_alphabetical) "Premium" "Standard").
    + simpl. auto.
    + simpl. auto.
    + vm_compute. reflexivity.
  - apply (proj1 (proj2 (proj2 fallback_tables_alphabetical)) (VStr "Unknown")).
    intros s [= <-] [E | [E | [E | []]]]; discriminate E.
Defined.

(** ** Where the normalization saturates *)

(** X17: the normalized risk is 0 exactly for raw outputs that are not
    positive, it is 100 exactly for raw outputs in [1, 2] or at least 100,
    and a raw output in [0, 1] is scaled by 100. *)
Theorem normalized_risk_saturation (r : Q) :
  (normalized_risk r == 0 <-> r <= 0) /\
  (normalized_risk r == 100 <-> 1 <= r <= 2 \/ 100 <= r) /\
  (0 <= r <= 1 -> normalized_risk r == r * 100).
Proof.
  destruct (Qlt_le_dec 2 r) as [H | H].
  - rewrite (normalized_risk_high r H).
    destruct (Q.min_spec r 100) as [[H1 ->] | [H1 ->]].
    + split; [split; intros; lra |]. split; [| intros; lra].
      split; [intros; lra |]. intros [? | ?]; lra.
    + split; [split; intros; lra |]. split; [| intros; lra].
      split; [intros _; right; lra | reflexivity].
  - rewrite (normalized_risk_low r H). unfold clamp.
    case_le r 0; [| case_le 1 r].
    + split; [split; intros; lra |]. split; [| intros; lra].
      split; [intros; lra |]. intros [? | ?]; lra.
    + split; [split; intros; lra |]. split; [| intros; lra].
      split; [intros _; left; lra | intros; lra].
    + split; [split; intros; lra |]. split; [| intros; lra].
      split; [intros; lra |]. intros [? | ?]; lra.
Qed.

Lemma normalized_risk_saturation_witness : normalized_risk 0.25 == 0.25 * 100.
Proof.
  apply (proj2 (proj2 (normalized_risk_saturation 0.25))).
  split; unfold Qle; simpl; lia.
Defined.

(** ** The insight cards *)

Lemma parity_succ (i : nat) :
  Nat.eqb (S i mod 2) 0 = negb (Nat.eqb (i mod 2) 0).
Proof.
  replace (S i) with (i + 1)%nat by lia.
  rewrite <- Nat.Div0.add_mod_idemp_l.
  pose proof (Nat.mod_upper_bound i 2 ltac:(lia)) as Hb.
  destruct (i mod 2)%nat as [| [| k]]; [reflexivity | reflexivity | lia].
Qed.

Lemma render_insights_columns {A} (insights : list A) :
  forall (i : nat) (k : nat),
    let '(col_i1, col_i2) := render_insights i insights in
    let first := if Nat.eqb (i mod 2) 0 then col_i1 else col_i2 in
    let second := if Nat.eqb (i mod 2) 0 then col_i2 else col_i1 in
    first !! k = insights !! (2 * k)%nat /\
    second !! k = insights !! (2 * k + 1)%nat /\
    (length second <= length first <= length second + 1)%nat /\
    col_i1 ++ col_i2 ≡ₚ insights.
Proof.
  induction insights as [| card rest IH]; intros i k.
  - cbn [render_insights]. cbv zeta.
    destruct (Nat.eqb (i mod 2) 0); rewrite !lookup_nil;
      repeat split; cbn [length]; try lia; reflexivity.
  - cbn [render_insights].
    pose proof (IH (S i)) as IH'. rewrite parity_succ in IH'.
    destruct (render_insights (S i) rest) as [c1 c2].
    destruct (Nat.eqb (i mod 2) 0); cbn [negb] in IH'; cbv zeta in *.
    + destruct (IH' k) as (_ & Hsnd & Hlen & Hperm).
      split; [| split; [| split]].
      * destruct k as [| k]; [reflexivity |].
        destruct (IH' k) as (_ & Hk & _).
        replace (2 * S k)%nat with (S (2 * k + 1)) by lia. exact Hk.
      * destruct (IH' k) as (Hk & _).
        replace (2 * k + 1)%nat with (S (2 * k)) by lia. exact Hk.
      * cbn [length]. lia.
      * cbn. now rewrite Hperm.
    + destruct (IH' k) as (_ & Hsnd & Hlen & Hperm).
      split; [| split; [| split]].
      * destruct k as [| k]; [reflexivity |].
        destruct (IH' k) as (_ & Hk & _).
        replace (2 * S k)%nat with (S (2 * k + 1)) by lia. exact Hk.
      * destruct (IH' k) as (Hk & _).
        replace (2 * k + 1)%nat with (S (2 * k)) by lia. exact Hk.
      * cbn [length]. lia.
      * rewrite <- Permutation_middle. now rewrite Hperm.
Qed.

(** X18: the insight cards are dealt to the two columns alternately,
    starting with the first column: the first column shows the cards at
    even positions and the second those at odd positions, in order; every
    card is shown exactly once, and the first column has as many cards as
    the second or one more. *)
Theorem render_insights_alternates {A} (insights : list A) :
  exists col_i1 col_i2 : list A,
    render_insights 0 insights = (col_i1, col_i2) /\
    (forall k : nat,
        col_i1 !! k = insights !! (2 * k)%nat /\
        col_i2 !! k = insights !! (2 * k + 1)%nat) /\
    col_i1 ++ col_i2 ≡ₚ insights /\
    (length col_i2 <= length col_i1 <= length col_i2 + 1)%nat.
Proof.
  pose proof (render_insights_columns insights 0) as H.
  destruct (render_insights 0 insights) as [c1 c2].
  exists c1, c2. split; [reflexivity |]. cbn in H.
  split; [intros k; destruct (H k) as (H1 & H2 & _); auto |].
  destruct (H 0%nat) as (_ & _ & Hlen & Hperm). auto.
Qed.

(** ** One run of the script *)

Lemma when_scored_inv {A} (st : session_state) (view : Q -> result A) (a : A) :
  when_scored st view = Ok (Some a) ->
  exists r : Q, st !! "churn_risk_score" = Some (VNum r) /\ view r = Ok a.
Proof.
  unfold when_scored, getitem.
  destruct (st !! "churn_risk_score") as [[| s | q] |]; cbn; try discriminate.
  destruct (view q) as [a' | e] eqn:E; cbn; [| discriminate].
  intros [= <-]. eauto.
Qed.

Lemma render_numeric_block_inv (widget : string -> value) (st st2 : session_state)
    (feat_name : string) :
  render_numeric_block widget st feat_name = Ok st2 ->
  st2 = write_input feat_name (widget feat_name) st.
Proof.
  unfold render_numeric_block.
  destruct (delta_pct st feat_name); cbn; [| discriminate]. now intros [= <-].
Qed.

Lemma render_categorical_block_inv (widget : string -> value) (st st2 : session_state)
    (feat_name : string) (options : list string) :
  render_categorical_block widget st feat_name options = Ok st2 ->
  st2 = write_input feat_name (widget feat_name) st.
Proof.
  unfold render_categorical_block.
  destruct (getitem st (state_key feat_name)) as [v | e]; cbn; [| discriminate].
  destruct (selectbox_index options v); cbn; [| discriminate]. now intros [= <-].
Qed.

Lemma write_input_frame (feat_name k : string) (v : value) (st : session_state) :
  (forall t : string, state_key t <> k) ->
  write_input feat_name v st !! k = st !! k.
Proof. intros H. unfold write_input. apply lookup_insert_ne, H. Qed.

(** The input blocks leave every key that is not an input as it was. *)
Lemma render_inputs_frame (widget : string -> value) (st st2 : session_state)
    (k : string) :
  render_inputs widget st = Ok st2 ->
  (forall t : string, state_key t <> k) ->
  st2 !! k = st !! k.
Proof.
  intros H Hk. unfold render_inputs in H.
  repeat match type of H with
         | (?block ≫= _) = Ok _ =>
             let E := fresh "E" in
             destruct block as [? | ?] eqn:E; cbn in H; [| discriminate H];
             (apply render_numeric_block_inv in E
              || apply render_categorical_block_inv in E)
         end.
  apply render_numeric_block_inv in H. subst.
  now rewrite !write_input_frame by exact Hk.
Qed.

Lemma script_run_inv (model : option Model) (encoder : option Encoder)
    (uuid8 : string) (widget : string -> value) (clicked : option clock)
    (st st' : session_state) (page : rendered) :
  script_run model encoder uuid8 widget clicked st = Ok (st', page) ->
  exists st2 : session_state,
    sidebar_status (initialize uuid8 st) = Ok (shown_sidebar page) /\
    render_inputs widget (initialize uuid8 st) = Ok st2 /\
    match clicked with
    | Some clk => evaluate model encoder clk st2 = Ok (st', shown_events page)
    | None => st' = st2
    end /\
    result_view st' = Ok (shown_box page) /\
    risk_topology st' = Ok (shown_topology page) /\
    risk_gauge st' = Ok (shown_gauge page) /\
    revenue_view st' = Ok (shown_revenue page) /\
    dossier st' = Ok (shown_dossier page).
Proof.
  unfold script_run.
  destruct (sidebar_status (initialize uuid8 st)) as [side | e]; cbn; [| discriminate].
  destruct (render_inputs widget (initialize uuid8 st)) as [st2 | e]; cbn;
    [| discriminate].
  intros H. exists st2.
  assert (Hrest : exists events : list ui_event,
             match clicked with
             | Some clk => evaluate model encoder clk st2 = Ok (st', events)
             | None => st' = st2 /\ events = []
             end /\
             exists box topo gauge rev dos,
               result_view st' = Ok box /\ risk_topology st' = Ok topo /\
               risk_gauge st' = Ok gauge /\ revenue_view st' = Ok rev /\
               dossier st' = Ok dos /\
               page = {| shown_sidebar := side; shown_events := events;
                         shown_box := box; shown_topology := topo;
                         shown_gauge := gauge; shown_revenue := rev;
                         shown_dossier := dos |}).
  { destruct (match clicked with
              | Some clk => evaluate model encoder clk st2
              | None => Ok (st2, [])
              end) as [[st3 events] | e] eqn:Eclick; cbn in H; [| discriminate H].
    destruct (result_view st3) as [box | e] eqn:E1; cbn in H; [| discriminate H].
    destruct (risk_topology st3) as [topo | e] eqn:E2; cbn in H; [| discriminate H].
    destruct (risk_gauge st3) as [gauge | e] eqn:E3; cbn in H; [| discriminate H].
    destruct (revenue_view st3) as [rev | e] eqn:E4; cbn in H; [| discriminate H].
    destruct (dossier st3) as [dos | e] eqn:E5; cbn in H; [| discriminate H].
    injection H as <- <-. exists events. split.
    - destruct clicked as [clk |]; [exact Eclick |].
      injection Eclick as <- <-. split; reflexivity.
    - exists box, topo, gauge, rev, dos. repeat split; assumption. }
  destruct Hrest as (events & Hclick & box & topo & gauge & rev & dos &
                     E1 & E2 & E3 & E4 & E5 & ->).
  cbn. split; [reflexivity |]. split; [reflexivity |]. split.
  - destruct clicked as [clk |]; [exact Hclick | apply Hclick].
  - repeat split; assumption.
Qed.

(** A run without a click, or with the click refused, leaves the score the
    sidebar read. *)
Lemma script_run_same_score (model : option Model) (encoder : option Encoder)
    (uuid8 : string) (widget : string -> value) (clicked : option clock)
    (st st' : session_state) (page : rendered) :
  script_run model encoder uuid8 widget clicked st = Ok (st', page) ->
  clicked = None \/ model = None ->
  st' !! "churn_risk_score" = initialize uuid8 st !! "churn_risk_score".
Proof.
  intros H Hno.
  destruct (script_run_inv _ _ _ _ _ _ _ _ H) as (st2 & _ & Hin & Hclick & _).
  assert (Hst : st' = st2).
  { destruct clicked as [clk |]; [| exact Hclick].
    destruct Hno as [Hno | ->]; [discriminate Hno |].
    rewrite evaluate_refused in Hclick. now injection Hclick as <- _. }
  subst st'. apply (render_inputs_frame widget _ _ _ Hin).
  intros t. apply (state_key_not_result t).
Qed.

Lemma sidebar_status_inv (st : session_state) (color text : string) (latency : value) :
  sidebar_status st = Ok (Some (color, text, latency)) ->
  exists r : Q,
    st !! "churn_risk_score" = Some (VNum r) /\
    text = (if Qgt_bool r 50 then "CRITICAL RISK DETECTED" else "RETENTION SECURE").
Proof.
  intros H. apply when_scored_inv in H as (r & Hr & H).
  exists r. split; [exact Hr |].
  destruct (getitem st "compute_latency"); cbn in H; [| discriminate H].
  now injection H as _ <- _.
Qed.

Lemma dossier_inv (st : session_state) (j : json) (df : frame) :
  dossier st = Ok (Some (j, df)) ->
  exists (r : Q) (sess_id ts : value) (telemetry : list (string * value)),
    st !! "churn_risk_score" = Some (VNum r) /\
    j = json_payload sess_id ts r telemetry.
Proof.
  intros H. apply when_scored_inv in H as (r & Hr & H).
  destruct (getitem st "timestamp") as [ts | e];
    cbn [mbind result_bind] in H; [| discriminate H].
  destruct (getitem st "session_id") as [sess_id | e];
    cbn [mbind result_bind] in H; [| discriminate H].
  destruct (customer_telemetry st) as [telemetry | e];
    cbn [mbind result_bind mret result_ret] in H; [| discriminate H].
  injection H as <- _. exists r, sess_id, ts, telemetry.
  split; [exact Hr | reflexivity].
Qed.

Lemma sidebar_text_thresholds (r : Q) :
  let text := if Qgt_bool r 50 then "CRITICAL RISK DETECTED" else "RETENTION SECURE" in
  (text = "CRITICAL RISK DETECTED" <-> 50 < r) /\
  (text = "RETENTION SECURE" <-> r <= 50).
Proof.
  cbv zeta. case_gt r 50; repeat split; intros; try discriminate;
    try reflexivity; lra.
Qed.

Lemma dossier_thresholds (r : Q) :
  (gauge_color r = "#f43f5e" <-> 50 <= r) /\
  (text_col r = "var(--crimson-neon)" <-> 50 <= r) /\
  (forall (sess_id ts : value) (telemetry : list (string * value)),
      json_get ["churn_prediction"; "status"] (json_payload sess_id ts r telemetry)
      = Some (JString "High Risk") <-> 50 <= r).
Proof.
  split; [| split].
  - destruct (gauge_color_cases r) as [[H ->] | [[H ->] | [H ->]]];
      split; intros; try discriminate; try reflexivity; lra.
  - unfold text_col. case_ge r 50; split; intros; try discriminate;
      try reflexivity; lra.
  - intros sess_id ts telemetry. rewrite json_payload_status.
    case_ge r 50; split; intros; try discriminate; try reflexivity; lra.
Qed.


Lemma sample_script_run_returns :
  is_ok (script_run None None "FFFFFFFF" sample_widget None
           (<["churn_risk_score" := VNum 50]> scored_session))
  = true.
Proof. vm_compute. reflexivity. Qed.


Lemma well_formed_write (st : session_state) (feat_name : string) (v : value) :
  well_formed st ->
  widget_accepts feat_name v = true ->
  well_formed (write_input feat_name v st).
Proof.
  intros (Hi & Hv & Hp) Ha. split; [| split].
  - now apply initialized_insert.
  - now apply valid_inputs_write.
  - now apply prediction_consistent_write.
Qed.

Lemma valid_inputs_lookup (st : session_state) (feat_name : string) :
  valid_inputs st ->
  In feat_name FEATURE_VECTORS ->
  exists v : value,
    st !! state_key feat_name = Some v /\ widget_accepts feat_name v = true.
Proof.
  unfold valid_inputs. rewrite Forall_forall. intros H Hin.
  apply H. now apply list_elem_of_In.
Qed.

Lemma render_numeric_block_ok (widget : string -> value) (st : session_state)
    (feat_name : string) :
  well_formed st ->
  valid_widget widget ->
  In feat_name (map fst numeric_blocks) ->
  render_numeric_block widget st feat_name
  = Ok (write_input feat_name (widget feat_name) st) /\
  well_formed (write_input feat_name (widget feat_name) st).
Proof.
  intros Hwf Hw Hin.
  assert (Hfeat : In feat_name FEATURE_VECTORS).
  { cbn in Hin. unfold FEATURE_VECTORS. cbn. tauto. }
  split; [| apply well_formed_write; [exact Hwf | now apply Hw]].
  destruct Hwf as (_ & Hv & _).
  destruct (valid_inputs_lookup st feat_name Hv Hfeat) as (v & Hlook & Hacc).
  destruct (numeric_blocks_baseline feat_name Hin) as (b & Hb & Hpos).
  assert (Hnum : exists q : Q, v = VNum q).
  { cbn in Hin.
    destruct Hin as [<- | [<- | [<- | [<- | [<- | [<- | []]]]]]];
      (eapply widget_accepts_slider in Hacc as (q & -> & _);
       [eauto | reflexivity]). }
  destruct Hnum as [q ->].
  unfold render_numeric_block.
  now rewrite (delta_pct_with_baseline st feat_name q b Hb Hpos Hlook).
Qed.

Lemma selectbox_index_total (options : list string) (v : value) :
  exists i : nat, selectbox_index options v = Ok i.
Proof.
  unfold selectbox_index. destruct (py_in v options) eqn:E; [| eauto].
  destruct (list_index_found v options E) as (i & Hi & _). eauto.
Qed.

Lemma render_categorical_block_ok (widget : string -> value) (st : session_state)
    (feat_name : string) (options : list string) :
  well_formed st ->
  valid_widget widget ->
  In feat_name FEATURE_VECTORS ->
  render_categorical_block widget st feat_name options
  = Ok (write_input feat_name (widget feat_name) st) /\
  well_formed (write_input feat_name (widget feat_name) st).
Proof.
  intros Hwf Hw Hin.
  split; [| apply well_formed_write; [exact Hwf | now apply Hw]].
  destruct Hwf as (_ & Hv & _).
  destruct (valid_inputs_lookup st feat_name Hv Hin) as (v & Hlook & _).
  unfold render_categorical_block, getitem. rewrite Hlook. cbn.
  destruct (selectbox_index_total options v) as [i ->]. reflexivity.
Qed.

Lemma render_inputs_ok (widget : string -> value) (st : session_state) :
  well_formed st ->
  valid_widget widget ->
  exists st2 : session_state, render_inputs widget st = Ok st2 /\ well_formed st2.
Proof.
  intros Hwf Hw. unfold render_inputs.
  destruct (render_numeric_block_ok widget st "Age" Hwf Hw) as [-> H1];
    [cbn; tauto |]. cbn [mbind result_bind].
  destruct (render_categorical_block_ok widget _ "Gender"
              ["Female"; "Male"; "Other"] H1 Hw) as [-> H2]; [cbn; tauto |].
  cbn [mbind result_bind].
  destruct (render_categorical_block_ok widget _ "Subscription Type"
              ["Basic"; "Standard"; "Premium"] H2 Hw) as [-> H3]; [cbn; tauto |].
  cbn [mbind result_bind].
  destruct (render_numeric_block_ok widget _ "Contract Length" H3 Hw) as [-> H4];
    [cbn; tauto |]. cbn [mbind result_bind].
  destruct (render_numeric_block_ok widget _ "Support Calls" H4 Hw) as [-> H5];
    [cbn; tauto |]. cbn [mbind result_bind].
  destruct (render_numeric_block_ok widget _ "Payment Delay" H5 Hw) as [-> H6];
    [cbn; tauto |]. cbn [mbind result_bind].
  destruct (render_numeric_block_ok widget _ "Total Spend" H6 Hw) as [-> H7];
    [cbn; tauto |]. cbn [mbind result_bind].
  destruct (render_numeric_block_ok widget _ "Last Interaction" H7 Hw) as [-> H8];
    [cbn; tauto |].
  eauto.
Qed.

Lemma evaluate_progress (model : option Model) (encoder : option Encoder)
    (clk : clock) (st : session_state) :
  (forall m : Model, model = Some m -> answers m) ->
  well_formed st ->
  exists (st' : session_state) (events : list ui_event),
    evaluate model encoder clk st = Ok (st', events) /\
    well_formed st' /\
    (forall m : Model, model = Some m ->
                       exists r : Q, st' !! "churn_risk_score" = Some (VNum r)).
Proof.
  intros Hans Hwf.
  assert (Hok : exists (st' : session_state) (events : list ui_event),
             evaluate model encoder clk st = Ok (st', events) /\
             (forall m : Model, model = Some m ->
                exists r : Q, st' !! "churn_risk_score" = Some (VNum r))).
  { destruct Hwf as (_ & Hv & _). unfold evaluate.
    destruct model as [m |].
    - destruct (payload_well_formed encoder st Hv) as [row ->]. cbn.
      destruct (Hans m eq_refl row) as (p & ps & ->). cbn.
      eexists _, _. split; [reflexivity |]. intros _ _. eexists.
      rewrite lookup_insert_ne by discriminate.
      rewrite lookup_insert_ne by discriminate.
      apply lookup_insert_eq.
    - eexists _, _. split; [reflexivity |]. intros m [=]. }
  destruct Hok as (st' & events & Hev & Hscore).
  exists st', events. split; [exact Hev |]. split; [| exact Hscore].
  eapply evaluate_well_formed; eassumption.
Qed.


